(** * weapondetection.py: a shallow embedding of the Streamlit detection script

    The script is straight-line glue over three libraries (Streamlit,
    OpenCV, Ultralytics).  The embedding keeps the script's control flow
    and records every library call it makes as an event of a trace:

    - widgets that collect input return what the user entered
      ([UserInput]); a radio or selectbox can only return one of the
      options it offers;
    - the detector, the class-name table, the devices [model.to]
      accepts, the capture devices and the clock are parameters of the
      development (Section variables);
    - a [while cap.isOpened()] loop is a fixpoint on a fuel argument; a run
      that needs more iterations than the fuel allows ends in [OutOfFuel];
    - an uncaught Python exception ends the run in [Raise]. *)

From Stdlib Require Import ZArith QArith String List Bool Arith Lia.
Import ListNotations.

Local Open Scope string_scope.
Local Open Scope Z_scope.
Local Open Scope list_scope.

(** ** Data *)

Inductive ChannelOrder := BGR | RGB.

(** A decoded image or video frame: [shape0] rows, [shape1] columns, the
    order of the colour channels and the pixel content (opaque). *)
Record Frame := mkFrame {
  shape0 : Z;
  shape1 : Z;
  channels : ChannelOrder;
  content : nat
}.

(** [frame[:, :, ::-1]] *)
Definition reverse_channels (f : Frame) : Frame :=
  mkFrame (shape0 f) (shape1 f)
          (match channels f with BGR => RGB | RGB => BGR end) (content f).

(** One detection: [int(box.cls)] and its confidence score. *)
Record Box := mkBox {
  cls : Z;
  score : Q
}.

(** [result.speed]: a dict of timings, or anything else. *)
Inductive SpeedInfo :=
| SpeedDict (d : list (string * Q))
| SpeedOther.

(** [results[0]] of a detector call; [plot] is the annotated frame that
    [result.plot()] draws. *)
Record Result := mkResult {
  boxes : list Box;
  speed : SpeedInfo;
  plot : Frame
}.

(** What [cv2.VideoCapture] is opened on. *)
Inductive Source :=
| SrcFile (path : string)
| SrcIndex (i : Z)
| SrcUrl (url : string).

(** The behaviour of an open capture handle, as a function of the number
    of [cap.read()] calls made so far: what [cap.isOpened()] answers, what
    the next [cap.read()] returns ([None] is [ret = False]) and what
    [cap.get(cv2.CAP_PROP_POS_FRAMES)] reports. *)
Record Capture := mkCapture {
  isOpened : nat -> bool;
  read : nat -> option Frame;
  pos_frames : nat -> Z
}.

(** The identity of a loaded detector object. *)
Definition ModelId := nat.

(** ** Events: the library calls of a run, in order *)

Inductive event :=
| StTitle (s : string)
| StSidebarTitle (s : string)
| StWidget (label : string)
| StEmpty
| StColumns (n : nat)
| StWrite (s : string)
| StWriteImageDetails (h w : Z)
| StWriteObjects (n : nat)
| StWriteClasses (s : string)
| StWriteSpeed (pre inf post : Q)
| StWriteVideoFrame (pos : Z) (n : nat) (classes : string)
| StWriteFrameInfo (idx : Z) (h w : Z) (detection_count : nat)
                   (detection_text_str : string) (pre inf post : Q)
| StImage (f : Frame) (caption : string)
| StSidebarImage (f : Frame) (caption : string)
| StDownloadButton (label : string) (f : Frame) (file_name : string)
| StVideo (path : string)
| StSubheader (s : string)
| StWarning (s : string)
| StSuccess (s : string)
| ModelTo (m : ModelId) (device : string)
| Detect (m : ModelId) (f : Frame) (conf : Q) (max_det : Z)
| TmpWrite (path : string) (data : string)
| OsUnlink (path : string)
| CapOpen (src : Source)
| CapRelease (src : Source)
| WriterOpen (path : string) (fourcc : string) (fps : Z) (w h : Z)
| WriterWrite (path : string) (f : Frame)
| WriterRelease (path : string).

Definition trace := list event.

(** ** The monad of a run: a trace, and a value, an exception or no fuel *)

Inductive exn := IndexError | KeyError | TypeError | RuntimeError.

Inductive outcome (A : Type) :=
| Ok (a : A) (tr : trace)
| Raise (e : exn) (tr : trace)
| OutOfFuel (tr : trace).

Arguments Ok {A} a tr.
Arguments Raise {A} e tr.
Arguments OutOfFuel {A} tr.

Definition M (A : Type) := outcome A.

Definition ret {A} (a : A) : M A := Ok a [].

Definition bind {A B} (m : M A) (k : A -> M B) : M B :=
  match m with
  | Ok a t1 =>
      match k a with
      | Ok b t2 => Ok b (t1 ++ t2)
      | Raise e t2 => Raise e (t1 ++ t2)
      | OutOfFuel t2 => OutOfFuel (t1 ++ t2)
      end
  | Raise e t1 => Raise e t1
  | OutOfFuel t1 => OutOfFuel t1
  end.

Definition emit (e : event) : M unit := Ok tt [e].
Definition raise {A} (e : exn) : M A := Raise e [].
Definition out_of_fuel {A} : M A := OutOfFuel [].

Definition events {A} (m : M A) : trace :=
  match m with
  | Ok _ t => t
  | Raise _ t => t
  | OutOfFuel t => t
  end.

(** [m] after the events [ev]. *)
Definition prepend {A} (ev : trace) (m : M A) : M A :=
  match m with
  | Ok a t => Ok a (ev ++ t)
  | Raise e t => Raise e (ev ++ t)
  | OutOfFuel t => OutOfFuel (ev ++ t)
  end.

Declare Scope run_scope.
Delimit Scope run_scope with run.
Notation "x <- c ;; k" := (bind c (fun x => k))
  (at level 100, c at next level, right associativity) : run_scope.
Notation "c ;; k" := (bind c (fun _ => k))
  (at level 100, right associativity) : run_scope.
Local Open Scope run_scope.

(** ** Python and library primitives *)

(** [l[:n]] *)
Definition py_slice_to {A} (l : list A) (n : Z) : list A :=
  if n <? 0
  then firstn (Z.to_nat (Z.of_nat (length l) + n)) l
  else firstn (Z.to_nat n) l.

(** [l[0]] *)
Definition py_index0 {A} (l : list A) : M A :=
  match l with
  | [] => raise IndexError
  | x :: _ => ret x
  end.

(** Truth value of a list and of a string. *)
Definition truthy {A} (l : list A) : bool :=
  match l with [] => false | _ :: _ => true end.

Definition nonempty_string (s : string) : bool :=
  match s with EmptyString => false | _ => true end.

(** [d.get(key, 0)] and [d[key]] on a dict of timings. *)
Fixpoint dict_lookup (d : list (string * Q)) (key : string) : option Q :=
  match d with
  | [] => None
  | (k, v) :: d' => if String.eqb k key then Some v else dict_lookup d' key
  end.

Definition dict_get (d : list (string * Q)) (key : string) (default : Q) : Q :=
  match dict_lookup d key with Some v => v | None => default end.

Definition speed_item (s : SpeedInfo) (key : string) : M Q :=
  match s with
  | SpeedOther => raise TypeError
  | SpeedDict d =>
      match dict_lookup d key with Some v => ret v | None => raise KeyError end
  end.

(** A radio or a selectbox returns the option the user picked, the first
    one by default. *)
Definition choose (options : list string) (index : nat) : string :=
  nth index options (hd "" options).

Definition radio (label : string) (options : list string) (index : nat)
  : M string :=
  emit (StWidget label) ;; ret (choose options index).

Definition selectbox (label : string) (options : list string) (index : nat)
  : M string :=
  emit (StWidget label) ;; ret (choose options index).

(** A number input and a slider return the number entered; the front end
    keeps it within the range of the widget (1 to 20 for the boxes, 0.0 to
    1.0 for the threshold, at least 1 for the snapshot interval). *)
Definition number_input (label : string) (entry : Z) : M Z :=
  emit (StWidget label) ;; ret entry.

Definition slider (label : string) (entry : Q) : M Q :=
  emit (StWidget label) ;; ret entry.

Definition button (label : string) (clicked : bool) : M bool :=
  emit (StWidget label) ;; ret clicked.

Definition checkbox (label : string) (checked : bool) : M bool :=
  emit (StWidget label) ;; ret checked.

Definition text_input (label default : string) (entry : option string)
  : M string :=
  emit (StWidget label) ;;
  ret (match entry with Some s => s | None => default end).

Definition file_uploader {A} (label : string) (file : option A)
  : M (option A) :=
  emit (StWidget label) ;; ret file.

(** ** The process: [st.cache_resource] *)

(** The state of the server process that outlives the reruns of the
    script: the resource cache entry of [load_model] and the number of
    detector objects constructed so far. *)
Record Process := mkProcess {
  resource_cache : option ModelId;
  models_built : nat
}.

Definition fresh_process : Process := mkProcess None 0%nat.

(** [YOLO(weights)]: constructs a new detector object. *)
Definition YOLO (weights : string) (p : Process) : ModelId * Process :=
  (models_built p, mkProcess (resource_cache p) (S (models_built p))).

(** [@st.cache_resource] on a function of no arguments: the first call
    runs the function and stores its result, later calls return the
    stored object. *)
Definition cache_resource (f : Process -> ModelId * Process)
  (p : Process) : ModelId * Process :=
  match resource_cache p with
  | Some m => (m, p)
  | None =>
      let '(m, p') := f p in
      (m, mkProcess (Some m) (models_built p'))
  end.

Definition load_model : Process -> ModelId * Process :=
  cache_resource (YOLO "weights/best.pt").

(** [n] successive calls of [load_model] in one process (one per rerun of
    the script): the objects returned, and the process afterwards. *)
Fixpoint load_model_calls (n : nat) (p : Process) : list ModelId * Process :=
  match n with
  | O => ([], p)
  | S n' =>
      let '(m, p1) := load_model p in
      let '(ms, p2) := load_model_calls n' p1 in
      (m :: ms, p2)
  end.

(** ** What the user does in one run of the script *)

Record UserInput := mkUserInput {
  option_index : nat;                 (* 1. Select Input Type *)
  max_boxes_entry : Z;                (* 2. Maximum Boxes To Draw *)
  device_index : nat;                 (* 3. Select Device *)
  min_score_entry : Q;                (* 4. Min Confidence Score Threshold *)
  save_index : nat;                   (* 5. Save Result? *)
  uploaded_image : option Frame;
  uploaded_video : option string;
  snapshot_clicked : bool;
  auto_snapshot_checked : bool;
  snapshot_interval_entry : Z;
  start_webcam_clicked : bool;
  mode_index : nat;
  start_ipcam_clicked : bool;
  ip_url_entry : option string;
  save_video_index : nat;
  result_path_entry : option string
}.

(** The module-level variables the sidebar sets. *)
Record Settings := mkSettings {
  option : string;
  MAX_BOXES_TO_DRAW : Z;
  DEVICES : string;
  MIN_SCORE_THRES : Q;
  save_option : string
}.

Definition input_types : list string :=
  ["Upload Image"; "Upload Video"; "Livecam Detection"].

Definition select_message : string :=
  "Select 'Webcam Detection' or 'IP Camera Detection' to start.".

Definition webcam_warning : string :=
  "Failed to read from the webcam. Check if it's connected.".

Definition ipcam_warning : string :=
  "Failed to read from the IP Camera. Check if the URL is correct.".

(** The detector contract of the Ultralytics library: a call with
    [conf] and [max_det] returns boxes of score at least [conf], and at
    most [max_det] of them. *)
Definition respects_arguments (predict : Frame -> Q -> Z -> Result) : Prop :=
  forall frame conf max_det,
    Forall (fun b => (conf <= score b)%Q) (boxes (predict frame conf max_det)) /\
    Z.of_nat (length (boxes (predict frame conf max_det))) <= Z.max 0 max_det.

(** ** Reading a run *)

(** The capture is open and its read succeeds at each of the [n] reads
    from the [k]-th on. *)
Definition streaming (cap : Capture) (k n : nat) : Prop :=
  forall i, (k <= i < k + n)%nat ->
            isOpened cap i = true /\ read cap i <> None.

(** At the [j]-th read the loop leaves: the handle is no longer open, or
    the read fails. *)
Definition stops_at (cap : Capture) (j : nat) : Prop :=
  isOpened cap j = false \/ read cap j = None.

(** The frames of the [n] reads from the [k]-th on, up to the first
    failure. *)
Fixpoint frames_from (cap : Capture) (k n : nat) : list Frame :=
  match n with
  | O => []
  | S n' =>
      match read cap k with
      | Some f => f :: frames_from cap (S k) n'
      | None => []
      end
  end.

(** The events a frame loop can produce. *)
Definition is_loop_event (e : event) : bool :=
  match e with
  | Detect _ _ _ _ | StImage _ _ | StWriteVideoFrame _ _ _
  | StWriteFrameInfo _ _ _ _ _ _ _ _ | StWarning _ => true
  | _ => false
  end.

Definition is_warning (e : event) : bool :=
  match e with StWarning _ => true | _ => false end.

Definition is_detect (e : event) : bool :=
  match e with Detect _ _ _ _ => true | _ => false end.

Definition is_writer_event (e : event) : bool :=
  match e with
  | WriterOpen _ _ _ _ _ | WriterWrite _ _ | WriterRelease _ => true
  | _ => false
  end.

(** An event of a frame that is neither the detector call nor a warning. *)
Definition quiet (e : event) : Prop :=
  is_loop_event e = true /\ is_warning e = false /\ is_detect e = false.

(** A camera is opened: [cv2.VideoCapture(0)] or [cv2.VideoCapture(url)]. *)
Definition opens_camera (e : event) : bool :=
  match e with
  | CapOpen (SrcIndex _) | CapOpen (SrcUrl _) => true
  | _ => false
  end.

(** Every detector call of the trace is made with [conf] and [max_det]. *)
Definition detects_with (conf : Q) (max_det : Z) (e : event) : Prop :=
  match e with
  | Detect _ _ c n => c = conf /\ n = max_det
  | _ => True
  end.

(** Every per-frame report of the trace counts at most [bound] labels. *)
Definition counts_at_most (bound : Z) (e : event) : Prop :=
  match e with
  | StWriteFrameInfo _ _ _ detection_count _ _ _ _ =>
      Z.of_nat detection_count <= bound
  | _ => True
  end.

(** The events of writing [frames] to the file [path]. *)
Definition video_file_events (path : string) (first : Frame)
  (frames : list Frame) : trace :=
  WriterOpen path "mp4v" 20 (shape1 first) (shape0 first)
  :: map (WriterWrite path) frames ++ [WriterRelease path].

(** The widgets of the save path. *)
Definition save_widgets : trace :=
  [StWidget "Save Processed Video?";
   StWidget "Enter the filename to save the video (e.g., 'result.mp4')"].

(** What each video branch does before its loop. *)
Definition video_prelude (tfile_name data : string) : trace :=
  [StWidget "Upload a video..."; TmpWrite tfile_name data; StVideo tfile_name;
   CapOpen (SrcFile tfile_name); StEmpty; StColumns 3;
   StWidget "Take Snapshot"; StWidget "Auto Snapshot";
   StWidget "Snapshot Interval (seconds)"].

Definition webcam_prelude : trace :=
  [StWidget "Start Webcam Detection"; CapOpen (SrcIndex 0); StEmpty;
   StWidget "Select Mode"; StSubheader "Detection Frame Detail Results"].

Definition ipcam_prelude (ip_url : string) : trace :=
  [StWidget "Start IP Camera Detection";
   StWidget "Enter IP Camera URL (e.g., rtsp:// or http://)";
   CapOpen (SrcUrl ip_url); StEmpty;
   StSubheader "Detection Frame Detail Results"].

(** ** Sample inputs *)

Definition sample_frame (n : nat) : Frame := mkFrame 480 640 BGR n.

Definition sample_candidates : list Box :=
  [mkBox 0 (9 # 10); mkBox 1 (1 # 2); mkBox 0 (3 # 10)].

(** A detector that keeps the candidates of score at least [conf], the
    first [max_det] of them. *)
Definition sample_predict (frame : Frame) (conf : Q) (max_det : Z) : Result :=
  mkResult
    (firstn (Z.to_nat max_det)
            (filter (fun b => Qle_bool conf (score b)) sample_candidates))
    (SpeedDict [("preprocess", 1 # 1); ("inference", 8 # 1);
                ("postprocess", 1 # 2)])
    (mkFrame (shape0 frame) (shape1 frame) BGR (content frame + 1000)).

(** A detector that ignores its arguments. *)
Definition greedy_predict (frame : Frame) (conf : Q) (max_det : Z) : Result :=
  mkResult sample_candidates SpeedOther frame.

Definition sample_names (c : Z) : string :=
  if c =? 0 then "gun" else if c =? 1 then "knife" else "object".

(** A video file: open until released, its reads fail after the last
    frame. *)
Definition capture_of (frames : list Frame) : Capture :=
  mkCapture (fun _ => true) (fun k => nth_error frames k) Z.of_nat.

(** A camera that never stops. *)
Definition endless_capture : Capture :=
  mkCapture (fun _ => true) (fun k => Some (sample_frame k)) Z.of_nat.

(** A device that cannot be opened. *)
Definition closed_capture : Capture :=
  mkCapture (fun _ => false) (fun _ => None) (fun _ => 0).

Definition sample_VideoCapture (src : Source) : Capture :=
  match src with
  | SrcFile _ => capture_of [sample_frame 0; sample_frame 1]
  | SrcIndex _ => capture_of [sample_frame 0; sample_frame 1; sample_frame 2]
  | SrcUrl _ => capture_of [sample_frame 7]
  end.

Definition sample_clock (k : nat) : Q := inject_Z (Z.of_nat k).

(** Only "cpu" is accepted as a device. *)
Definition cpu_only (device : string) : bool := String.eqb device "cpu".

(** A user who picks "Livecam Detection"; there is a file in each
    uploader, both start buttons are clicked, a camera URL is entered and
    the processed video is to be saved. *)
Definition livecam_user : UserInput :=
  mkUserInput 2 5 0 (2 # 5) 0 (Some (sample_frame 9)) (Some "bytes")
              false true 1
              true 1 true (Some "rtsp://camera/stream") 1 None.

(** A user who picks "Upload Image" and uploads one, and a user who picks
    "Upload Video" and uploads one. *)
Definition image_user : UserInput :=
  mkUserInput 0 5 0 (2 # 5) 0 (Some (sample_frame 9)) None
              false false 5 false 0 false None 0 None.

(** The "Upload Image" user with device "0" selected. *)
Definition image_gpu_user : UserInput :=
  mkUserInput 0 5 1 (2 # 5) 0 (Some (sample_frame 9)) None
              false false 5 false 0 false None 0 None.

Definition video_user : UserInput :=
  mkUserInput 1 5 0 (2 # 5) 1 None (Some "bytes")
              true false 5 false 0 false None 0 None.

(** The same "Livecam Detection" user with device "0" selected. *)
Definition gpu_user : UserInput :=
  mkUserInput 2 5 1 (2 # 5) 0 (Some (sample_frame 9)) (Some "bytes")
              false true 1
              true 1 true (Some "rtsp://camera/stream") 1 None.

Definition sample_cfg : Settings :=
  mkSettings "Livecam Detection" 5 "cpu" (2 # 5) "Yes".

(** At most two boxes. *)
Definition small_cfg : Settings :=
  mkSettings "Livecam Detection" 2 "cpu" (2 # 5) "Yes".

(** ** The script *)

Section Script.

(** [model(frame, conf=c, max_det=n)[0]], [model.names], the capture
    handle [cv2.VideoCapture] returns, the successive values of
    [time.time()], the name of the temporary file, and the user. *)
Variable predict : Frame -> Q -> Z -> Result.
Variable names : Z -> string.

(** The device strings [model.to] accepts; for any other it raises
    [RuntimeError] (torch accepts "cpu" and rejects a bare index such as
    "0"). *)
Variable device_accepted : string -> bool.

Variable VideoCapture : Source -> Capture.
Variable time_time : nat -> Q.
Variable tfile_name : string.
Variable ui : UserInput.

Section Handlers.

Variable model : ModelId.
Variable cfg : Settings.

Definition model_call (frame : Frame) (conf : Q) (max_det : Z) : M Result :=
  emit (Detect model frame conf max_det) ;;
  ret (predict frame conf max_det).

Definition process_image (image : Frame) : M Result :=
  model_call image (MIN_SCORE_THRES cfg) (MAX_BOXES_TO_DRAW cfg).

Definition process_video_frame (frame : Frame) : M Result :=
  model_call frame (MIN_SCORE_THRES cfg) (MAX_BOXES_TO_DRAW cfg).

(** [', '.join([model.names[int(cls)] for cls in result.boxes.cls])] *)
Definition classes_of (result : Result) : string :=
  String.concat ", " (map (fun b => names (cls b)) (boxes result)).

(** The two columns only place the output; an image of PIL has
    [size = (width, height)]. *)
Definition display_results (result : Result) (original_image : Frame)
  : M unit :=
  emit (StColumns 2) ;;
  emit (StWrite "Original Image") ;;
  emit (StImage original_image "") ;;
  emit (StWrite "Detected Objects") ;;
  emit (StImage (plot result) "") ;;
  let speed_info := speed result in
  emit (StWriteImageDetails (shape0 original_image) (shape1 original_image)) ;;
  emit (StWriteObjects (length (boxes result))) ;;
  emit (StWriteClasses (classes_of result)) ;;
  pre <- speed_item speed_info "preprocess" ;;
  inf <- speed_item speed_info "inference" ;;
  post <- speed_item speed_info "postprocess" ;;
  emit (StWriteSpeed pre inf post).

(** [if option == "Upload Image":] *)
Definition image_branch : M unit :=
  uploaded <- file_uploader "Choose an image..." (uploaded_image ui) ;;
  match uploaded with
  | Some image =>
      result <- process_image image ;;
      display_results result image ;;
      if String.eqb (save_option cfg) "Yes" then
        let result_image := plot result in
        emit (StSidebarImage result_image "Detected Image") ;;
        emit (StDownloadButton "Download Result Image" result_image
                               "result_image.jpg")
      else ret tt
  | None => ret tt
  end.

(** The loop of the uploaded video, entered after [k] reads. *)
Fixpoint upload_loop (fuel : nat) (cap : Capture) (k : nat)
    (snapshot_button auto_snapshot : bool) (snapshot_interval : Z)
    (last_snapshot_time : Q) : M unit :=
  match fuel with
  | O => out_of_fuel
  | S fuel' =>
      if isOpened cap k then
        match read cap k with
        | None => ret tt
        | Some frame =>
            result <- process_video_frame frame ;;
            let processed_frame := plot result in
            let current_time := time_time (S k) in
            st <- (if snapshot_button
                      || (auto_snapshot
                          && Qle_bool (inject_Z snapshot_interval)
                                      (current_time - last_snapshot_time))
                   then
                     emit (StImage processed_frame "Latest Snapshot") ;;
                     ret (false, current_time)
                   else ret (snapshot_button, last_snapshot_time)) ;;
            emit (StWriteVideoFrame (pos_frames cap (S k))
                                    (length (boxes result))
                                    (classes_of result)) ;;
            upload_loop fuel' cap (S k) (fst st) auto_snapshot
                        snapshot_interval (snd st)
        end
      else ret tt
  end.

(** [elif option == "Upload Video":] *)
Definition video_branch (fuel : nat) : M unit :=
  uploaded <- file_uploader "Upload a video..." (uploaded_video ui) ;;
  match uploaded with
  | Some data =>
      emit (TmpWrite tfile_name data) ;;
      emit (StVideo tfile_name) ;;
      emit (CapOpen (SrcFile tfile_name)) ;;
      let cap := VideoCapture (SrcFile tfile_name) in
      emit StEmpty ;;
      emit (StColumns 3) ;;
      snapshot_button <- button "Take Snapshot" (snapshot_clicked ui) ;;
      auto_snapshot <- checkbox "Auto Snapshot" (auto_snapshot_checked ui) ;;
      snapshot_interval <- number_input "Snapshot Interval (seconds)"
                                        (snapshot_interval_entry ui) ;;
      let last_snapshot_time := time_time 0 in
      upload_loop fuel cap 0 snapshot_button auto_snapshot snapshot_interval
                  last_snapshot_time ;;
      emit (CapRelease (SrcFile tfile_name)) ;;
      emit (OsUnlink tfile_name)
  | None => ret tt
  end.

(** [for box in detections[:MAX_BOXES_TO_DRAW]: detection_text.append(...)] *)
Definition collect_labels (detections : list Box) : list string :=
  fold_left (fun detection_text box => detection_text ++ [names (cls box)])
            (py_slice_to detections (MAX_BOXES_TO_DRAW cfg)) [].

Definition default_speed : list (string * Q) :=
  [("inference", 0%Q); ("preprocess", 0%Q); ("postprocess", 0%Q)].

(** The loop of the webcam and of the IP camera, entered after [k] reads
    with the frames processed so far.  The two loops of the source differ
    in the text of the warning and in the caption of the image only. *)
Fixpoint camera_loop (warning caption : string) (fuel : nat) (cap : Capture)
    (k : nat) (processed_frames : list Frame) : M (list Frame) :=
  match fuel with
  | O => out_of_fuel
  | S fuel' =>
      if isOpened cap k then
        match read cap k with
        | None =>
            emit (StWarning warning) ;;
            ret processed_frames
        | Some frame =>
            results0 <- model_call frame (MIN_SCORE_THRES cfg)
                                   (MAX_BOXES_TO_DRAW cfg) ;;
            let processed_frame := plot results0 in
            let processed_frames := processed_frames ++ [processed_frame] in
            let speed_info :=
              match speed results0 with
              | SpeedDict d => d
              | SpeedOther => default_speed
              end in
            let inference_time := dict_get speed_info "inference" 0%Q in
            let preprocess_time := dict_get speed_info "preprocess" 0%Q in
            let postprocess_time := dict_get speed_info "postprocess" 0%Q in
            let detections := boxes results0 in
            let detection_text := collect_labels detections in
            let detection_count := length detection_text in
            let detection_text_str :=
              if truthy detection_text
              then String.concat ", " detection_text
              else "No detections" in
            emit (StImage (reverse_channels processed_frame) caption) ;;
            emit (StWriteFrameInfo
                    (Z.of_nat (length processed_frames) - 1)
                    (shape0 frame) (shape1 frame)
                    detection_count detection_text_str
                    preprocess_time inference_time postprocess_time) ;;
            camera_loop warning caption fuel' cap (S k) processed_frames
        end
      else ret processed_frames
  end.

(** [for frame in processed_frames: out.write(frame)] *)
Fixpoint write_frames (path : string) (frames : list Frame) : M unit :=
  match frames with
  | [] => ret tt
  | frame :: rest => emit (WriterWrite path frame) ;; write_frames path rest
  end.

(** The saving of the processed video, the same text in both camera
    branches.  The radio assigns [save_option] anew. *)
Definition save_processed_video (processed_frames : list Frame) : M unit :=
  save_option <- radio "Save Processed Video?" ["No"; "Yes"]
                       (save_video_index ui) ;;
  if String.eqb save_option "Yes" && truthy processed_frames then
    result_video_path <-
      text_input "Enter the filename to save the video (e.g., 'result.mp4')"
                 "result.mp4" (result_path_entry ui) ;;
    first1 <- py_index0 processed_frames ;;
    first0 <- py_index0 processed_frames ;;
    emit (WriterOpen result_video_path "mp4v" 20
                     (shape1 first1) (shape0 first0)) ;;
    write_frames result_video_path processed_frames ;;
    emit (WriterRelease result_video_path) ;;
    emit (StSuccess ("Video saved as " ++ result_video_path))
  else ret tt.

(** [if option == "Webcam Detection":] *)
Definition webcam_branch (fuel : nat) : M unit :=
  start_button <- button "Start Webcam Detection" (start_webcam_clicked ui) ;;
  if start_button then
    emit (CapOpen (SrcIndex 0)) ;;
    let cap := VideoCapture (SrcIndex 0) in
    emit StEmpty ;;
    selectbox "Select Mode"
              ["Choose..."; "Webcam Detection"; "IP Camera Detection"]
              (mode_index ui) ;;
    emit (StSubheader "Detection Frame Detail Results") ;;
    processed_frames <-
      camera_loop webcam_warning "Webcam Detection" fuel cap 0 [] ;;
    emit (CapRelease (SrcIndex 0)) ;;
    save_processed_video processed_frames
  else ret tt.

(** [elif option == "IP Camera Detection":] *)
Definition ipcam_branch (fuel : nat) : M unit :=
  start_button <-
    button "Start IP Camera Detection" (start_ipcam_clicked ui) ;;
  if start_button then
    ip_url <- text_input "Enter IP Camera URL (e.g., rtsp:// or http://)" ""
                         (ip_url_entry ui) ;;
    if nonempty_string ip_url then
      emit (CapOpen (SrcUrl ip_url)) ;;
      let cap := VideoCapture (SrcUrl ip_url) in
      emit StEmpty ;;
      emit (StSubheader "Detection Frame Detail Results") ;;
      processed_frames <-
        camera_loop ipcam_warning "IP Camera Detection" fuel cap 0 [] ;;
      emit (CapRelease (SrcUrl ip_url)) ;;
      save_processed_video processed_frames
    else ret tt
  else ret tt.

End Handlers.

(** The sidebar: the five controls, in order. *)
Definition sidebar : M Settings :=
  emit (StSidebarTitle "Detection Options Config") ;;
  option <- radio "1. Select Input Type:" input_types (option_index ui) ;;
  max_boxes <- number_input "2. Maximum Boxes To Draw" (max_boxes_entry ui) ;;
  devices <- selectbox "3. Select Device" ["cpu"; "0"; "1"; "2"]
                       (device_index ui) ;;
  min_score <- slider "4. Min Confidence Score Threshold"
                      (min_score_entry ui) ;;
  save <- selectbox "5. Save Result?" ["Yes"; "No"] (save_index ui) ;;
  ret (mkSettings option max_boxes devices min_score save).

(** The first chain of branches: image, video, or nothing. *)
Definition upload_branches (model : ModelId) (cfg : Settings) (fuel : nat)
  : M unit :=
  if String.eqb (option cfg) "Upload Image" then image_branch model cfg
  else if String.eqb (option cfg) "Upload Video"
       then video_branch model cfg fuel
  else ret tt.

(** The second chain of branches: webcam, IP camera, or the message. *)
Definition camera_branches (model : ModelId) (cfg : Settings) (fuel : nat)
  : M unit :=
  if String.eqb (option cfg) "Webcam Detection"
  then webcam_branch model cfg fuel
  else if String.eqb (option cfg) "IP Camera Detection"
       then ipcam_branch model cfg fuel
  else emit (StWrite select_message).

(** [model.to(device)]: the call is made, and raises for a device the
    library does not accept. *)
Definition model_to (model : ModelId) (device : string) : M unit :=
  emit (ModelTo model device) ;;
  if device_accepted device then ret tt else raise RuntimeError.

(** The script from its first Streamlit call on, with the detector
    [load_model()] returned. *)
Definition script_body (model : ModelId) (fuel : nat) : M unit :=
  emit (StTitle "YOLOv8 Objects Detection App") ;;
  cfg <- sidebar ;;
  model_to model (DEVICES cfg) ;;
  upload_branches model cfg fuel ;;
  model_to model (DEVICES cfg) ;;
  camera_branches model cfg fuel.

(** One run of the script in process [p]. *)
Definition script (p : Process) (fuel : nat) : Process * M unit :=
  let '(model, p') := load_model p in
  (p', script_body model fuel).

(** The annotated frame the loops draw for [frame]. *)
Definition annotated (cfg : Settings) (frame : Frame) : Frame :=
  plot (predict frame (MIN_SCORE_THRES cfg) (MAX_BOXES_TO_DRAW cfg)).

(** The file name the video is saved under. *)
Definition result_video_path : string :=
  match result_path_entry ui with Some s => s | None => "result.mp4" end.

(** The URL the IP-camera branch reads. *)
Definition ip_url : string :=
  match ip_url_entry ui with Some s => s | None => "" end.

(** What the sidebar returns and renders. *)
Definition sidebar_settings : Settings :=
  mkSettings (choose input_types (option_index ui))
             (max_boxes_entry ui)
             (choose ["cpu"; "0"; "1"; "2"] (device_index ui))
             (min_score_entry ui)
             (choose ["Yes"; "No"] (save_index ui)).

Definition sidebar_events : trace :=
  [StSidebarTitle "Detection Options Config";
   StWidget "1. Select Input Type:";
   StWidget "2. Maximum Boxes To Draw";
   StWidget "3. Select Device";
   StWidget "4. Min Confidence Score Threshold";
   StWidget "5. Save Result?"].

(** ** Reading more of a run *)

(** The frames passed to the detector, the frames shown by [st.image] or a
    placeholder, the frame numbers and the timings of the per-frame
    reports, in the order of the trace. *)
Definition detected_frames (t : trace) : list Frame :=
  flat_map (fun e => match e with Detect _ f _ _ => [f] | _ => [] end) t.

Definition shown_images (t : trace) : list Frame :=
  flat_map (fun e => match e with StImage f _ => [f] | _ => [] end) t.

Definition report_indices (t : trace) : list Z :=
  flat_map (fun e => match e with
                     | StWriteFrameInfo idx _ _ _ _ _ _ _ => [idx]
                     | _ => []
                     end) t.

Definition report_timings (t : trace) : list (Q * Q * Q) :=
  flat_map (fun e => match e with
                     | StWriteFrameInfo _ _ _ _ _ pre inf post =>
                         [(pre, inf, post)]
                     | _ => []
                     end) t.

(** The object counts of the per-frame lines of the uploaded video. *)
Definition video_report_counts (t : trace) : list nat :=
  flat_map (fun e => match e with
                     | StWriteVideoFrame _ n _ => [n]
                     | _ => []
                     end) t.

Definition is_model_to (e : event) : bool :=
  match e with ModelTo _ _ => true | _ => false end.

Definition is_download (e : event) : bool :=
  match e with StDownloadButton _ _ _ => true | _ => false end.

Definition is_cap_open (e : event) : bool :=
  match e with CapOpen _ => true | _ => false end.

(** A per-frame report without a label: count 0 and the fixed text. *)
Definition says_no_detections (e : event) : Prop :=
  match e with
  | StWriteFrameInfo _ _ _ n text _ _ _ =>
      n = 0%nat /\ text = "No detections"
  | _ => True
  end.

(** [result.speed] is a dict with the three timings. *)
Definition speed_complete (s : SpeedInfo) : bool :=
  match s with
  | SpeedOther => false
  | SpeedDict d =>
      match dict_lookup d "preprocess", dict_lookup d "inference",
            dict_lookup d "postprocess" with
      | Some _, Some _, Some _ => true
      | _, _, _ => false
      end
  end.

(** The timings a camera loop reports for a result: a missing timing, or a
    [speed] that is no dict, counts as 0. *)
Definition frame_timings (r : Result) : Q * Q * Q :=
  match speed r with
  | SpeedDict d =>
      (dict_get d "preprocess" 0%Q, dict_get d "inference" 0%Q,
       dict_get d "postprocess" 0%Q)
  | SpeedOther => (0%Q, 0%Q, 0%Q)
  end.

(** The three events of one turn of a camera loop on [frame], the
    [idx]-th processed frame. *)
Definition frame_report (model : ModelId) (cfg : Settings) (caption : string)
  (idx : nat) (frame : Frame) : trace :=
  let result := predict frame (MIN_SCORE_THRES cfg) (MAX_BOXES_TO_DRAW cfg) in
  let detection_text := collect_labels cfg (boxes result) in
  [Detect model frame (MIN_SCORE_THRES cfg) (MAX_BOXES_TO_DRAW cfg);
   StImage (reverse_channels (plot result)) caption;
   StWriteFrameInfo (Z.of_nat idx) (shape0 frame) (shape1 frame)
     (length detection_text)
     (if truthy detection_text
      then String.concat ", " detection_text
      else "No detections")
     (fst (fst (frame_timings result))) (snd (fst (frame_timings result)))
     (snd (frame_timings result))].

Fixpoint camera_reports (model : ModelId) (cfg : Settings) (caption : string)
  (idx : nat) (frames : list Frame) : trace :=
  match frames with
  | [] => []
  | frame :: rest =>
      frame_report model cfg caption idx frame
      ++ camera_reports model cfg caption (S idx) rest
  end.

(** The snapshot test of the uploaded-video loop at its [k]-th read. *)
Definition snapshot_due (k : nat) (snapshot_button auto_snapshot : bool)
  (snapshot_interval : Z) (last_snapshot_time : Q) : bool :=
  snapshot_button
  || (auto_snapshot
      && Qle_bool (inject_Z snapshot_interval)
                  (time_time (S k) - last_snapshot_time)).

(** ** Lemmas on runs *)

Lemma bind_Ok_inv {A B} (m : M A) (k : A -> M B) b t :
  bind m k = Ok b t ->
  exists a t1 t2, m = Ok a t1 /\ k a = Ok b t2 /\ t = t1 ++ t2.
Proof.
  unfold bind. destruct m as [a t1|e t1|t1]; try discriminate.
  destruct (k a) as [b' t2|e t2|t2] eqn:Hk; try discriminate.
  intros H. injection H as -> <-. now exists a, t1, t2.
Qed.

Lemma events_bind {A B} (m : M A) (k : A -> M B) :
  events (bind m k) =
  events m ++ match m with Ok a _ => events (k a) | _ => [] end.
Proof.
  destruct m as [a t1|e t1|t1]; simpl; try now rewrite app_nil_r.
  now destruct (k a).
Qed.

(** A property of every event passes through a bind. *)
Lemma Forall_events_bind {A B} (P : event -> Prop) (m : M A) (k : A -> M B) :
  Forall P (events m) -> (forall a, Forall P (events (k a))) ->
  Forall P (events (bind m k)).
Proof.
  intros Hm Hk. rewrite events_bind. apply Forall_app. split; [exact Hm|].
  destruct m; auto.
Qed.

Lemma Forall_events_emit (P : event -> Prop) (e : event) :
  P e -> Forall P (events (emit e)).
Proof. intros H. simpl. auto. Qed.

Lemma Forall_events_ret {A} (P : event -> Prop) (a : A) :
  Forall P (events (ret a)).
Proof. simpl. auto. Qed.

(** Splits a goal [Forall P (events c)] along the binds and branches of
    [c]; what is left are the events themselves and the calls of the
    handlers. *)
Ltac trace_inv :=
  repeat first
    [ match goal with
      | |- Forall _ (events (ret _)) => apply Forall_events_ret
      | |- Forall _ (events (raise _)) => apply Forall_nil
      | |- Forall _ (events (emit _)) => apply Forall_events_emit
      | |- Forall _ (events (bind _ _)) =>
          apply Forall_events_bind; [|intros ?]
      end
    | match goal with
      | |- Forall _ (events (match ?x with _ => _ end)) => destruct x
      | |- Forall _ (events (if ?b then _ else _)) => destruct b
      end
    | progress cbv beta zeta ].

Lemma choose_input_types (i : nat) :
  choose input_types i = "Upload Image" \/
  choose input_types i = "Upload Video" \/
  choose input_types i = "Livecam Detection".
Proof.
  destruct i as [|[|[|i]]]; cbn; auto.
  destruct i; cbn; auto.
Qed.

(** ** Lemmas on the frame loops *)

Lemma prepend_Ok_inv {A} (ev : trace) (m : M A) a t :
  prepend ev m = Ok a t -> exists t', m = Ok a t' /\ t = ev ++ t'.
Proof.
  destruct m; simpl; try discriminate.
  intros H. injection H as -> <-. eauto.
Qed.

Lemma events_prepend {A} (ev : trace) (m : M A) :
  events (prepend ev m) = ev ++ events m.
Proof. now destruct m. Qed.

Lemma bind_Ok_l {A B} (a : A) (t : trace) (k : A -> M B) :
  bind (Ok a t) k = prepend t (k a).
Proof. reflexivity. Qed.

Lemma prepend_prepend {A} (ev1 ev2 : trace) (m : M A) :
  prepend ev1 (prepend ev2 m) = prepend (ev1 ++ ev2) m.
Proof. destruct m; simpl; now rewrite app_assoc. Qed.

Lemma bind_prepend {A B} (ev : trace) (m : M A) (k : A -> M B) :
  bind (prepend ev m) k = prepend ev (bind m k).
Proof.
  destruct m as [a t| |]; simpl; try reflexivity.
  destruct (k a); simpl; now rewrite app_assoc.
Qed.

Lemma model_call_eq model frame conf max_det :
  model_call model frame conf max_det =
  Ok (predict frame conf max_det) [Detect model frame conf max_det].
Proof. reflexivity. Qed.

(** Brings a run that starts with known events to the form
    [prepend events rest]. *)
Ltac run_head :=
  repeat first
    [ rewrite model_call_eq
    | rewrite bind_Ok_l
    | rewrite bind_prepend
    | rewrite prepend_prepend
    | progress change (@emit ?e) with (@Ok unit tt [e])
    | progress (unfold ret)
    | progress cbv zeta
    | progress cbn [fst snd app] ].

Lemma quiet_no_detect (rest : trace) :
  Forall quiet rest -> filter is_detect rest = [].
Proof.
  induction 1 as [|e l (_ & _ & He) _ IHl]; [reflexivity|].
  simpl. now rewrite He.
Qed.

(** One turn of the camera loop on a frame. *)
Lemma camera_loop_step model cfg w c fuel cap k pf0 frame :
  isOpened cap k = true -> read cap k = Some frame ->
  exists rest,
    Forall quiet rest /\
    camera_loop model cfg w c (S fuel) cap k pf0 =
    prepend (Detect model frame (MIN_SCORE_THRES cfg) (MAX_BOXES_TO_DRAW cfg)
             :: rest)
            (camera_loop model cfg w c fuel cap (S k)
                         (pf0 ++ [annotated cfg frame])).
Proof.
  intros Ho Hr. cbn [camera_loop]. rewrite Ho, Hr. run_head.
  eexists. split; [|reflexivity]. repeat constructor.
Qed.

(** One turn of the loop of the uploaded video on a frame. *)
Lemma upload_loop_step model cfg fuel cap k sb au si last frame :
  isOpened cap k = true -> read cap k = Some frame ->
  exists rest sb' last',
    Forall quiet rest /\
    upload_loop model cfg (S fuel) cap k sb au si last =
    prepend (Detect model frame (MIN_SCORE_THRES cfg) (MAX_BOXES_TO_DRAW cfg)
             :: rest)
            (upload_loop model cfg fuel cap (S k) sb' au si last').
Proof.
  intros Ho Hr. cbn [upload_loop]. rewrite Ho, Hr.
  unfold process_video_frame.
  destruct (sb || _); run_head;
    (eexists _, _, _; split; [|reflexivity]); repeat constructor.
Qed.

Lemma streaming_0 cap k : streaming cap k 0.
Proof. intros i Hi. lia. Qed.

Lemma streaming_S cap k n :
  isOpened cap k = true -> read cap k <> None -> streaming cap (S k) n ->
  streaming cap k (S n).
Proof.
  intros Ho Hr Hs i Hi. destruct (Nat.eq_dec i k) as [->|Hne]; [auto|].
  apply Hs. lia.
Qed.

Lemma streaming_inv cap k n :
  streaming cap k (S n) ->
  isOpened cap k = true /\ (exists f, read cap k = Some f) /\
  streaming cap (S k) n.
Proof.
  intros Hs. destruct (Hs k ltac:(lia)) as [Ho Hr]. split; [exact Ho|]. split.
  - destruct (read cap k) as [f|]; [eauto|congruence].
  - intros i Hi. apply Hs. lia.
Qed.

Lemma streaming_not_stopped cap k n j :
  streaming cap k n -> (k <= j < k + n)%nat -> ~ stops_at cap j.
Proof.
  intros Hs Hj [Hc|Hf]; destruct (Hs j Hj) as [Ho Hr]; congruence.
Qed.

Lemma frames_from_streaming cap n : forall k,
  streaming cap k n -> length (frames_from cap k n) = n.
Proof.
  induction n as [|n IH]; intros k Hs; [reflexivity|].
  apply streaming_inv in Hs as (_ & [f Hf] & Hs). simpl. rewrite Hf. simpl.
  now rewrite IH.
Qed.

(** A camera loop that returns has read frames up to a point where the
    source stopped; its trace is made of frame events, one detector call
    per frame, and ends with the warning when it was a read that failed. *)
Lemma camera_loop_Ok_inv model cfg w c fuel : forall cap k pf0 pf t,
  camera_loop model cfg w c fuel cap k pf0 = Ok pf t ->
  exists n,
    (n < fuel)%nat /\ streaming cap k n /\ stops_at cap (k + n) /\
    pf = pf0 ++ map (annotated cfg) (frames_from cap k n) /\
    Forall (fun e => is_loop_event e = true) t /\
    length (filter is_detect t) = n /\
    exists t',
      Forall (fun e => is_warning e = false) t' /\
      t = t' ++ (if isOpened cap (k + n) then [StWarning w] else []).
Proof.
  induction fuel as [|fuel IH]; intros cap k pf0 pf t H; [discriminate|].
  destruct (isOpened cap k) eqn:Ho; [destruct (read cap k) as [frame|] eqn:Hr|].
  - destruct (camera_loop_step model cfg w c fuel cap k pf0 frame Ho Hr)
      as (rest & Hq & Heq).
    rewrite Heq in H. apply prepend_Ok_inv in H as (t1 & H & ->).
    apply IH in H as (n & Hn & Hs & Hstop & -> & Hev & Hd & t' & Hw & ->).
    exists (S n). rewrite Nat.add_succ_r.
    split; [lia|]. split; [apply streaming_S; [assumption|congruence|assumption]|].
    split; [exact Hstop|]. split.
    { simpl. rewrite Hr. simpl. now rewrite <- app_assoc. }
    split.
    { constructor; [reflexivity|]. apply Forall_app. split; [|exact Hev].
      eapply Forall_impl; [|exact Hq]. now intros e (He & _). }
    split.
    { cbn [app filter is_detect length]. f_equal. rewrite filter_app.
      rewrite length_app, Hd.
      now rewrite quiet_no_detect. }
    exists (Detect model frame (MIN_SCORE_THRES cfg) (MAX_BOXES_TO_DRAW cfg)
            :: rest ++ t').
    split.
    { constructor; [reflexivity|]. apply Forall_app. split; [|exact Hw].
      eapply Forall_impl; [|exact Hq]. now intros e (_ & He & _). }
    cbn [app]. now rewrite <- app_assoc.
  - cbn [camera_loop] in H. rewrite Ho, Hr in H. injection H as <- <-.
    exists 0%nat. rewrite Nat.add_0_r, Ho.
    split; [lia|]. split; [apply streaming_0|]. split; [now right|].
    split; [simpl; now rewrite app_nil_r|].
    split; [repeat constructor|]. split; [reflexivity|].
    exists []. split; [constructor|reflexivity].
  - cbn [camera_loop] in H. rewrite Ho in H. injection H as <- <-.
    exists 0%nat. rewrite Nat.add_0_r, Ho.
    split; [lia|]. split; [apply streaming_0|]. split; [now left|].
    split; [simpl; now rewrite app_nil_r|].
    split; [constructor|]. split; [reflexivity|].
    exists []. split; [constructor|reflexivity].
Qed.

(** While the source streams, enough fuel lets the camera loop return once
    the source stops. *)
Lemma camera_loop_total model cfg w c cap n : forall fuel k pf0,
  streaming cap k n -> stops_at cap (k + n) -> (n < fuel)%nat ->
  exists t,
    camera_loop model cfg w c fuel cap k pf0 =
    Ok (pf0 ++ map (annotated cfg) (frames_from cap k n)) t.
Proof.
  induction n as [|n IH]; intros fuel k pf0 Hs Hstop Hf;
    (destruct fuel as [|fuel]; [lia|]).
  - rewrite Nat.add_0_r in Hstop. cbn [camera_loop frames_from map].
    rewrite app_nil_r.
    destruct Hstop as [Hc|Hr].
    + rewrite Hc. now eexists.
    + destruct (isOpened cap k); [rewrite Hr|]; now eexists.
  - apply streaming_inv in Hs as (Ho & [frame Hr] & Hs).
    destruct (camera_loop_step model cfg w c fuel cap k pf0 frame Ho Hr)
      as (rest & _ & ->).
    rewrite Nat.add_succ_r in Hstop.
    destruct (IH fuel (S k) (pf0 ++ [annotated cfg frame]) Hs Hstop
                ltac:(lia)) as [t Ht].
    rewrite Ht. cbn [prepend frames_from]. rewrite Hr. cbn [map].
    rewrite <- app_assoc. now eexists.
Qed.

(** While the source streams, the camera loop is still running when the
    fuel is spent, one detector call per unit of fuel behind it. *)
Lemma camera_loop_blocked model cfg w c cap fuel : forall k pf0,
  streaming cap k fuel ->
  exists t,
    camera_loop model cfg w c fuel cap k pf0 = OutOfFuel t /\
    length (filter is_detect t) = fuel.
Proof.
  induction fuel as [|fuel IH]; intros k pf0 Hs.
  - now exists [].
  - apply streaming_inv in Hs as (Ho & [frame Hr] & Hs).
    destruct (camera_loop_step model cfg w c fuel cap k pf0 frame Ho Hr)
      as (rest & Hq & ->).
    destruct (IH (S k) (pf0 ++ [annotated cfg frame]) Hs) as (t & -> & Hd).
    eexists. split; [reflexivity|].
    cbn [app filter is_detect length]. f_equal. rewrite filter_app.
    rewrite length_app, Hd.
    now rewrite quiet_no_detect.
Qed.

Lemma camera_loop_no_raise model cfg w c fuel : forall cap k pf0 e t,
  camera_loop model cfg w c fuel cap k pf0 <> Raise e t.
Proof.
  induction fuel as [|fuel IH]; intros cap k pf0 e t; [discriminate|].
  destruct (isOpened cap k) eqn:Ho; [destruct (read cap k) as [frame|] eqn:Hr|].
  - destruct (camera_loop_step model cfg w c fuel cap k pf0 frame Ho Hr)
      as (rest & _ & ->).
    specialize (IH cap (S k) (pf0 ++ [annotated cfg frame])).
    destruct (camera_loop model cfg w c fuel cap (S k) _); try discriminate.
    simpl. intros H. injection H as <- <-. now apply (IH e0 tr).
  - cbn [camera_loop]. rewrite Ho, Hr. discriminate.
  - cbn [camera_loop]. rewrite Ho. discriminate.
Qed.

(** The loop of the uploaded video that returns has read frames up to a
    point where the source stopped; it shows no warning. *)
Lemma upload_loop_Ok_inv model cfg fuel : forall cap k sb au si last u t,
  upload_loop model cfg fuel cap k sb au si last = Ok u t ->
  exists n,
    (n < fuel)%nat /\ streaming cap k n /\ stops_at cap (k + n) /\
    Forall (fun e => is_loop_event e = true /\ is_warning e = false) t /\
    length (filter is_detect t) = n.
Proof.
  induction fuel as [|fuel IH]; intros cap k sb au si last u t H;
    [discriminate|].
  destruct (isOpened cap k) eqn:Ho; [destruct (read cap k) as [frame|] eqn:Hr|].
  - destruct (upload_loop_step model cfg fuel cap k sb au si last frame Ho Hr)
      as (rest & sb' & last' & Hq & Heq).
    rewrite Heq in H. apply prepend_Ok_inv in H as (t1 & H & ->).
    apply IH in H as (n & Hn & Hs & Hstop & Hev & Hd).
    exists (S n). rewrite Nat.add_succ_r.
    split; [lia|]. split; [apply streaming_S; [assumption|congruence|assumption]|].
    split; [exact Hstop|]. split.
    { constructor; [now split|]. apply Forall_app. split; [|exact Hev].
      eapply Forall_impl; [|exact Hq]. now intros e (He & Hw & _). }
    cbn [app filter is_detect length]. f_equal. rewrite filter_app.
    now rewrite length_app, Hd, quiet_no_detect.
  - cbn [upload_loop] in H. rewrite Ho, Hr in H. injection H as <- <-.
    exists 0%nat. rewrite Nat.add_0_r.
    split; [lia|]. split; [apply streaming_0|]. split; [now right|].
    split; [constructor|reflexivity].
  - cbn [upload_loop] in H. rewrite Ho in H. injection H as <- <-.
    exists 0%nat. rewrite Nat.add_0_r.
    split; [lia|]. split; [apply streaming_0|]. split; [now left|].
    split; [constructor|reflexivity].
Qed.

Lemma upload_loop_total model cfg cap n : forall fuel k sb au si last,
  streaming cap k n -> stops_at cap (k + n) -> (n < fuel)%nat ->
  exists t, upload_loop model cfg fuel cap k sb au si last = Ok tt t.
Proof.
  induction n as [|n IH]; intros fuel k sb au si last Hs Hstop Hf;
    (destruct fuel as [|fuel]; [lia|]).
  - rewrite Nat.add_0_r in Hstop. cbn [upload_loop].
    destruct Hstop as [Hc|Hr].
    + rewrite Hc. now eexists.
    + destruct (isOpened cap k); [rewrite Hr|]; now eexists.
  - apply streaming_inv in Hs as (Ho & [frame Hr] & Hs).
    destruct (upload_loop_step model cfg fuel cap k sb au si last frame Ho Hr)
      as (rest & sb' & last' & _ & ->).
    rewrite Nat.add_succ_r in Hstop.
    destruct (IH fuel (S k) sb' au si last' Hs Hstop ltac:(lia)) as [t Ht].
    rewrite Ht. now eexists.
Qed.

Lemma upload_loop_blocked model cfg cap fuel : forall k sb au si last,
  streaming cap k fuel ->
  exists t,
    upload_loop model cfg fuel cap k sb au si last = OutOfFuel t /\
    length (filter is_detect t) = fuel.
Proof.
  induction fuel as [|fuel IH]; intros k sb au si last Hs.
  - now exists [].
  - apply streaming_inv in Hs as (Ho & [frame Hr] & Hs).
    destruct (upload_loop_step model cfg fuel cap k sb au si last frame Ho Hr)
      as (rest & sb' & last' & Hq & ->).
    destruct (IH (S k) sb' au si last' Hs) as (t & -> & Hd).
    eexists. split; [reflexivity|].
    cbn [app filter is_detect length]. f_equal. rewrite filter_app.
    now rewrite length_app, Hd, quiet_no_detect.
Qed.

Lemma upload_loop_no_raise model cfg fuel : forall cap k sb au si last e t,
  upload_loop model cfg fuel cap k sb au si last <> Raise e t.
Proof.
  induction fuel as [|fuel IH]; intros cap k sb au si last e t;
    [discriminate|].
  destruct (isOpened cap k) eqn:Ho; [destruct (read cap k) as [frame|] eqn:Hr|].
  - destruct (upload_loop_step model cfg fuel cap k sb au si last frame Ho Hr)
      as (rest & sb' & last' & _ & ->).
    specialize (IH cap (S k) sb' au si last').
    destruct (upload_loop model cfg fuel cap (S k) _ _ _ _); try discriminate.
    simpl. intros H. injection H as <- <-. now apply (IH e0 tr).
  - cbn [upload_loop]. rewrite Ho, Hr. discriminate.
  - cbn [upload_loop]. rewrite Ho. discriminate.
Qed.

(** Whatever the outcome, the events of a loop are frame events. *)
Lemma camera_loop_events model cfg w c fuel : forall cap k pf0,
  Forall (fun e => is_loop_event e = true)
         (events (camera_loop model cfg w c fuel cap k pf0)).
Proof.
  induction fuel as [|fuel IH]; intros cap k pf0; [constructor|].
  destruct (isOpened cap k) eqn:Ho; [destruct (read cap k) as [frame|] eqn:Hr|].
  - destruct (camera_loop_step model cfg w c fuel cap k pf0 frame Ho Hr)
      as (rest & Hq & ->).
    rewrite events_prepend. constructor; [reflexivity|].
    apply Forall_app. split; [|apply IH].
    eapply Forall_impl; [|exact Hq]. now intros e (He & _).
  - cbn [camera_loop]. rewrite Ho, Hr. repeat constructor.
  - cbn [camera_loop]. rewrite Ho. constructor.
Qed.

Lemma upload_loop_events model cfg fuel : forall cap k sb au si last,
  Forall (fun e => is_loop_event e = true /\ is_warning e = false)
         (events (upload_loop model cfg fuel cap k sb au si last)).
Proof.
  induction fuel as [|fuel IH]; intros cap k sb au si last; [constructor|].
  destruct (isOpened cap k) eqn:Ho; [destruct (read cap k) as [frame|] eqn:Hr|].
  - destruct (upload_loop_step model cfg fuel cap k sb au si last frame Ho Hr)
      as (rest & sb' & last' & Hq & ->).
    rewrite events_prepend. constructor; [now split|].
    apply Forall_app. split; [|apply IH].
    eapply Forall_impl; [|exact Hq]. now intros e (He & Hw & _).
  - cbn [upload_loop]. rewrite Ho, Hr. constructor.
  - cbn [upload_loop]. rewrite Ho. constructor.
Qed.

Lemma streaming_le cap k n m :
  streaming cap k n -> (m <= n)%nat -> streaming cap k m.
Proof. intros Hs Hle i Hi. apply Hs. lia. Qed.

(** ** The frame loops *)

(** C5: while the capture handle reports open and its reads succeed, none
    of the three frame loops (uploaded video; webcam and IP camera, the
    camera loop with either warning) has left: after [fuel <= n] turns on a
    source that streams for [n] reads the loop is still running, with one
    detector call per turn behind it.  A loop that leaves does so at a read
    where the handle is closed or the read fails, after streaming up to
    there; once the source stops the loop does leave; and no loop ends in
    an exception. *)
Theorem loops_leave_only_when_source_stops model cfg cap k n :
  streaming cap k n ->
  (forall fuel sb au si last, (fuel <= n)%nat ->
     exists t,
       upload_loop model cfg fuel cap k sb au si last = OutOfFuel t /\
       length (filter is_detect t) = fuel) /\
  (forall w c fuel pf0, (fuel <= n)%nat ->
     exists t,
       camera_loop model cfg w c fuel cap k pf0 = OutOfFuel t /\
       length (filter is_detect t) = fuel) /\
  (forall fuel sb au si last u t,
     upload_loop model cfg fuel cap k sb au si last = Ok u t ->
     exists j, (n <= j)%nat /\ streaming cap k j /\ stops_at cap (k + j) /\
               length (filter is_detect t) = j) /\
  (forall w c fuel pf0 pf t,
     camera_loop model cfg w c fuel cap k pf0 = Ok pf t ->
     exists j, (n <= j)%nat /\ streaming cap k j /\ stops_at cap (k + j) /\
               length (filter is_detect t) = j) /\
  (stops_at cap (k + n) ->
   forall fuel, (n < fuel)%nat ->
     (forall sb au si last,
        exists t, upload_loop model cfg fuel cap k sb au si last = Ok tt t) /\
     (forall w c pf0,
        exists pf t, camera_loop model cfg w c fuel cap k pf0 = Ok pf t)) /\
  (forall fuel sb au si last e t,
     upload_loop model cfg fuel cap k sb au si last <> Raise e t) /\
  (forall w c fuel pf0 e t,
     camera_loop model cfg w c fuel cap k pf0 <> Raise e t).
Proof.
  intros Hs.
  assert (Hlate : forall j, streaming cap k j -> stops_at cap (k + j) ->
                            (n <= j)%nat).
  { intros j Hj Hstop. destruct (le_lt_dec n j) as [|Hlt]; [assumption|].
    exfalso. apply (streaming_not_stopped cap k n (k + j) Hs); [lia|exact Hstop]. }
  split.
  { intros fuel sb au si last Hle. apply upload_loop_blocked.
    now apply (streaming_le cap k n). }
  split.
  { intros w c fuel pf0 Hle. apply camera_loop_blocked.
    now apply (streaming_le cap k n). }
  split.
  { intros fuel sb au si last u t H.
    apply upload_loop_Ok_inv in H as (j & _ & Hj & Hstop & _ & Hd).
    exists j. auto. }
  split.
  { intros w c fuel pf0 pf t H.
    apply camera_loop_Ok_inv in H as (j & _ & Hj & Hstop & _ & _ & Hd & _).
    exists j. auto. }
  split.
  { intros Hstop fuel Hf. split.
    - intros sb au si last. now apply upload_loop_total with (n := n).
    - intros w c pf0.
      destruct (camera_loop_total model cfg w c cap n fuel k pf0) as [t Ht];
        eauto. }
  split.
  - intros fuel sb au si last e t. apply upload_loop_no_raise.
  - intros w c fuel pf0 e t. apply camera_loop_no_raise.
Qed.

(** C2 (amended): at a read that fails while the handle is open, the
    webcam loop and the IP-camera loop display their warning and leave,
    with the frames processed so far and no other event; the loop of the
    uploaded video leaves too, but displays nothing.  Over a whole run: a
    camera loop that returns ends its trace with the warning exactly when
    it left on a failed read, and the loop of the uploaded video never
    displays a warning. *)
Theorem failed_read_leaves_the_loop model cfg cap k :
  isOpened cap k = true -> read cap k = None ->
  (forall fuel pf,
     camera_loop model cfg webcam_warning "Webcam Detection" (S fuel) cap k pf
     = Ok pf [StWarning webcam_warning]) /\
  (forall fuel pf,
     camera_loop model cfg ipcam_warning "IP Camera Detection" (S fuel) cap k
                 pf
     = Ok pf [StWarning ipcam_warning]) /\
  (forall fuel sb au si last,
     upload_loop model cfg (S fuel) cap k sb au si last = Ok tt []) /\
  (forall w c fuel k0 pf0 pf t,
     camera_loop model cfg w c fuel cap k0 pf0 = Ok pf t ->
     exists j t',
       stops_at cap (k0 + j) /\
       Forall (fun e => is_warning e = false) t' /\
       t = t' ++ (if isOpened cap (k0 + j) then [StWarning w] else [])) /\
  (forall fuel k0 sb au si last,
     Forall (fun e => is_warning e = false)
            (events (upload_loop model cfg fuel cap k0 sb au si last))).
Proof.
  intros Ho Hr. repeat split.
  - intros fuel pf. cbn [camera_loop]. now rewrite Ho, Hr.
  - intros fuel pf. cbn [camera_loop]. now rewrite Ho, Hr.
  - intros fuel sb au si last. cbn [upload_loop]. now rewrite Ho, Hr.
  - intros w c fuel k0 pf0 pf t H.
    apply camera_loop_Ok_inv in H
      as (j & _ & _ & Hstop & _ & _ & _ & t' & Hw & ->).
    now exists j, t'.
  - intros fuel k0 sb au si last.
    eapply Forall_impl; [|apply upload_loop_events]. now intros e [_ He].
Qed.

(** ** Saving the processed video *)

Lemma write_frames_eq path frames :
  write_frames path frames = Ok tt (map (WriterWrite path) frames).
Proof.
  induction frames as [|f l IH]; [reflexivity|].
  cbn [write_frames map]. run_head. now rewrite IH.
Qed.

Lemma save_processed_video_yes first rest :
  choose ["No"; "Yes"] (save_video_index ui) = "Yes" ->
  save_processed_video (first :: rest) =
  Ok tt (save_widgets
         ++ video_file_events result_video_path first (first :: rest)
         ++ [StSuccess ("Video saved as " ++ result_video_path)]).
Proof.
  intros Hyes. unfold save_processed_video, radio, text_input.
  rewrite Hyes. run_head. cbn [String.eqb Ascii.eqb Bool.eqb andb truthy].
  run_head. cbn [py_index0]. run_head. rewrite write_frames_eq. run_head.
  unfold video_file_events, save_widgets, result_video_path. cbn [prepend app].
  now rewrite <- app_assoc.
Qed.

Lemma save_processed_video_skip pf :
  String.eqb (choose ["No"; "Yes"] (save_video_index ui)) "Yes"
  && truthy pf = false ->
  save_processed_video pf = Ok tt [StWidget "Save Processed Video?"].
Proof.
  intros Hno. unfold save_processed_video, radio. run_head.
  now rewrite Hno.
Qed.

Lemma save_processed_video_Ok pf :
  exists t, save_processed_video pf = Ok tt t.
Proof.
  destruct (String.eqb (choose ["No"; "Yes"] (save_video_index ui)) "Yes"
            && truthy pf) eqn:Hg.
  - apply andb_prop in Hg as [Hyes Hpf]. apply String.eqb_eq in Hyes.
    destruct pf as [|first rest]; [discriminate|].
    rewrite save_processed_video_yes by assumption. now eexists.
  - rewrite save_processed_video_skip by assumption. now eexists.
Qed.

(** ** The video branches *)

Lemma video_branch_uploaded model cfg fuel data :
  uploaded_video ui = Some data ->
  video_branch model cfg fuel =
  prepend (video_prelude tfile_name data)
    (upload_loop model cfg fuel (VideoCapture (SrcFile tfile_name)) 0
                 (snapshot_clicked ui) (auto_snapshot_checked ui)
                 (snapshot_interval_entry ui) (time_time 0) ;;
     emit (CapRelease (SrcFile tfile_name)) ;;
     emit (OsUnlink tfile_name)).
Proof.
  intros Hup. unfold video_branch, file_uploader, button, checkbox,
    number_input. rewrite Hup. run_head. reflexivity.
Qed.

Lemma webcam_branch_started model cfg fuel :
  start_webcam_clicked ui = true ->
  webcam_branch model cfg fuel =
  prepend webcam_prelude
    (processed_frames <-
       camera_loop model cfg webcam_warning "Webcam Detection" fuel
                   (VideoCapture (SrcIndex 0)) 0 [] ;;
     emit (CapRelease (SrcIndex 0)) ;;
     save_processed_video processed_frames).
Proof.
  intros Hst. unfold webcam_branch, button, selectbox. rewrite Hst.
  run_head. reflexivity.
Qed.

Lemma ipcam_branch_started model cfg fuel :
  start_ipcam_clicked ui = true -> nonempty_string ip_url = true ->
  ipcam_branch model cfg fuel =
  prepend (ipcam_prelude ip_url)
    (processed_frames <-
       camera_loop model cfg ipcam_warning "IP Camera Detection" fuel
                   (VideoCapture (SrcUrl ip_url)) 0 [] ;;
     emit (CapRelease (SrcUrl ip_url)) ;;
     save_processed_video processed_frames).
Proof.
  intros Hst Hurl. unfold ipcam_branch, button, text_input. rewrite Hst.
  run_head. fold ip_url. rewrite Hurl. run_head. reflexivity.
Qed.

(** A camera branch after its prelude: loop, release, save. *)
Lemma camera_run_Ok_inv model cfg w c fuel cap src u t :
  (processed_frames <- camera_loop model cfg w c fuel cap 0 [] ;;
   emit (CapRelease src) ;;
   save_processed_video processed_frames) = Ok u t ->
  exists pf loop_t save_t,
    camera_loop model cfg w c fuel cap 0 [] = Ok pf loop_t /\
    save_processed_video pf = Ok tt save_t /\
    t = loop_t ++ CapRelease src :: save_t.
Proof.
  intros H. apply bind_Ok_inv in H as (pf & loop_t & t2 & Hloop & H & ->).
  change (emit (CapRelease src)) with (@Ok unit tt [CapRelease src]) in H.
  rewrite bind_Ok_l in H. apply prepend_Ok_inv in H as (save_t & Hsave & ->).
  destruct u. now exists pf, loop_t, save_t.
Qed.

(** C3: a run of the uploaded-video branch writes the uploaded bytes to
    the temporary file and opens the capture on it before its loop, and
    after the loop releases that capture and unlinks that file, in this
    order and as its last two events; a started webcam run and a started
    IP-camera run open their capture before the loop and release it right
    after the loop, before the save path.  The loop itself produces frame
    events only.  Each of the three runs does return once its source
    stops within the fuel. *)
Theorem capture_released_and_file_deleted model cfg fuel :
  (forall data t,
     uploaded_video ui = Some data ->
     video_branch model cfg fuel = Ok tt t ->
     exists loop_t,
       upload_loop model cfg fuel (VideoCapture (SrcFile tfile_name)) 0
                   (snapshot_clicked ui) (auto_snapshot_checked ui)
                   (snapshot_interval_entry ui) (time_time 0) = Ok tt loop_t /\
       Forall (fun e => is_loop_event e = true) loop_t /\
       In (TmpWrite tfile_name data) (video_prelude tfile_name data) /\
       In (CapOpen (SrcFile tfile_name)) (video_prelude tfile_name data) /\
       t = video_prelude tfile_name data ++ loop_t
           ++ [CapRelease (SrcFile tfile_name); OsUnlink tfile_name]) /\
  (forall t,
     start_webcam_clicked ui = true ->
     webcam_branch model cfg fuel = Ok tt t ->
     exists pf loop_t save_t,
       camera_loop model cfg webcam_warning "Webcam Detection" fuel
                   (VideoCapture (SrcIndex 0)) 0 [] = Ok pf loop_t /\
       Forall (fun e => is_loop_event e = true) loop_t /\
       save_processed_video pf = Ok tt save_t /\
       In (CapOpen (SrcIndex 0)) webcam_prelude /\
       t = webcam_prelude ++ loop_t ++ CapRelease (SrcIndex 0) :: save_t) /\
  (forall t,
     start_ipcam_clicked ui = true -> nonempty_string ip_url = true ->
     ipcam_branch model cfg fuel = Ok tt t ->
     exists pf loop_t save_t,
       camera_loop model cfg ipcam_warning "IP Camera Detection" fuel
                   (VideoCapture (SrcUrl ip_url)) 0 [] = Ok pf loop_t /\
       Forall (fun e => is_loop_event e = true) loop_t /\
       save_processed_video pf = Ok tt save_t /\
       In (CapOpen (SrcUrl ip_url)) (ipcam_prelude ip_url) /\
       t = ipcam_prelude ip_url ++ loop_t
           ++ CapRelease (SrcUrl ip_url) :: save_t) /\
  (forall n, (n < fuel)%nat ->
     (forall data,
        uploaded_video ui = Some data ->
        streaming (VideoCapture (SrcFile tfile_name)) 0 n ->
        stops_at (VideoCapture (SrcFile tfile_name)) n ->
        exists t, video_branch model cfg fuel = Ok tt t) /\
     (start_webcam_clicked ui = true ->
      streaming (VideoCapture (SrcIndex 0)) 0 n ->
      stops_at (VideoCapture (SrcIndex 0)) n ->
      exists t, webcam_branch model cfg fuel = Ok tt t) /\
     (start_ipcam_clicked ui = true -> nonempty_string ip_url = true ->
      streaming (VideoCapture (SrcUrl ip_url)) 0 n ->
      stops_at (VideoCapture (SrcUrl ip_url)) n ->
      exists t, ipcam_branch model cfg fuel = Ok tt t)).
Proof.
  split.
  { intros data t Hup H. rewrite (video_branch_uploaded _ _ _ data Hup) in H.
    apply prepend_Ok_inv in H as (t1 & H & ->).
    apply bind_Ok_inv in H as ([] & loop_t & t2 & Hloop & H & ->).
    injection H as <-. exists loop_t.
    split; [exact Hloop|]. split.
    { pose proof (upload_loop_events model cfg fuel
                    (VideoCapture (SrcFile tfile_name)) 0
                    (snapshot_clicked ui) (auto_snapshot_checked ui)
                    (snapshot_interval_entry ui) (time_time 0)) as Hev.
      rewrite Hloop in Hev. eapply Forall_impl; [|exact Hev].
      now intros e [He _]. }
    split; [simpl; auto|]. split; [simpl; auto|]. reflexivity. }
  split.
  { intros t Hst H. rewrite (webcam_branch_started _ _ _ Hst) in H.
    apply prepend_Ok_inv in H as (t1 & H & ->).
    apply camera_run_Ok_inv in H as (pf & loop_t & save_t & Hloop & Hsave & ->).
    exists pf, loop_t, save_t. split; [exact Hloop|]. split.
    { pose proof (camera_loop_events model cfg webcam_warning
                    "Webcam Detection" fuel (VideoCapture (SrcIndex 0)) 0 [])
        as Hev.
      now rewrite Hloop in Hev. }
    split; [exact Hsave|]. split; [simpl; auto|]. reflexivity. }
  split.
  { intros t Hst Hurl H. rewrite (ipcam_branch_started _ _ _ Hst Hurl) in H.
    apply prepend_Ok_inv in H as (t1 & H & ->).
    apply camera_run_Ok_inv in H as (pf & loop_t & save_t & Hloop & Hsave & ->).
    exists pf, loop_t, save_t. split; [exact Hloop|]. split.
    { pose proof (camera_loop_events model cfg ipcam_warning
                    "IP Camera Detection" fuel (VideoCapture (SrcUrl ip_url))
                    0 []) as Hev.
      now rewrite Hloop in Hev. }
    split; [exact Hsave|]. split; [simpl; auto|]. reflexivity. }
  intros n Hn. split.
  { intros data Hup Hs Hstop. rewrite (video_branch_uploaded _ _ _ data Hup).
    destruct (upload_loop_total model cfg (VideoCapture (SrcFile tfile_name))
                n fuel 0%nat (snapshot_clicked ui) (auto_snapshot_checked ui)
                (snapshot_interval_entry ui) (time_time 0) Hs Hstop Hn)
      as [t Ht].
    rewrite Ht. now eexists. }
  split.
  { intros Hst Hs Hstop. rewrite (webcam_branch_started _ _ _ Hst).
    destruct (camera_loop_total model cfg webcam_warning "Webcam Detection"
                (VideoCapture (SrcIndex 0)) n fuel 0%nat [] Hs Hstop Hn)
      as [t Ht].
    rewrite Ht. run_head.
    destruct (save_processed_video_Ok
                (map (annotated cfg)
                     (frames_from (VideoCapture (SrcIndex 0)) 0 n)))
      as [st Hsave].
    rewrite Hsave. now eexists. }
  intros Hst Hurl Hs Hstop. rewrite (ipcam_branch_started _ _ _ Hst Hurl).
  destruct (camera_loop_total model cfg ipcam_warning "IP Camera Detection"
              (VideoCapture (SrcUrl ip_url)) n fuel 0%nat [] Hs Hstop Hn)
    as [t Ht].
  rewrite Ht. run_head.
  destruct (save_processed_video_Ok
              (map (annotated cfg)
                   (frames_from (VideoCapture (SrcUrl ip_url)) 0 n)))
    as [st Hsave].
  rewrite Hsave. now eexists.
Qed.

Lemma loop_event_not_writer (e : event) :
  is_loop_event e = true -> is_writer_event e = false.
Proof. destruct e; simpl; congruence. Qed.

Lemma camera_run_no_raise model cfg w c fuel cap src e t :
  (processed_frames <- camera_loop model cfg w c fuel cap 0 [] ;;
   emit (CapRelease src) ;;
   save_processed_video processed_frames) <> Raise e t.
Proof.
  pose proof (camera_loop_no_raise model cfg w c fuel cap 0%nat []) as Hno.
  destruct (camera_loop model cfg w c fuel cap 0 []) as [pf lt|e' lt|lt];
    [|now elim (Hno e' lt)|discriminate].
  run_head. destruct (save_processed_video_Ok pf) as [st ->]. discriminate.
Qed.

Lemma prepend_no_raise {A} (ev : trace) (m : M A) :
  (forall e t, m <> Raise e t) -> forall e t, prepend ev m <> Raise e t.
Proof.
  intros Hm e t. destruct m as [a t1|e1 t1|t1]; try discriminate.
  now elim (Hm e1 t1).
Qed.

Lemma webcam_branch_no_raise model cfg fuel e t :
  webcam_branch model cfg fuel <> Raise e t.
Proof.
  destruct (start_webcam_clicked ui) eqn:Hst.
  - rewrite (webcam_branch_started _ _ _ Hst). apply prepend_no_raise.
    intros e' t'. apply camera_run_no_raise.
  - unfold webcam_branch, button. rewrite Hst. discriminate.
Qed.

Lemma ipcam_branch_no_raise model cfg fuel e t :
  ipcam_branch model cfg fuel <> Raise e t.
Proof.
  destruct (start_ipcam_clicked ui) eqn:Hst;
    [destruct (nonempty_string ip_url) eqn:Hurl|].
  - rewrite (ipcam_branch_started _ _ _ Hst Hurl). apply prepend_no_raise.
    intros e' t'. apply camera_run_no_raise.
  - unfold ipcam_branch, button, text_input. rewrite Hst. run_head.
    fold ip_url. rewrite Hurl. discriminate.
  - unfold ipcam_branch, button. rewrite Hst. discriminate.
Qed.

(** A camera run on a source that gives no frame. *)
Lemma camera_run_empty model cfg w c fuel cap src u t :
  stops_at cap 0 ->
  (processed_frames <- camera_loop model cfg w c fuel cap 0 [] ;;
   emit (CapRelease src) ;;
   save_processed_video processed_frames) = Ok u t ->
  Forall (fun e => is_writer_event e = false) t.
Proof.
  intros Hstop H.
  apply camera_run_Ok_inv in H as (pf & loop_t & save_t & Hloop & Hsave & ->).
  pose proof (camera_loop_events model cfg w c fuel cap 0%nat []) as Hev.
  rewrite Hloop in Hev. cbn [events] in Hev.
  apply camera_loop_Ok_inv in Hloop as (n & _ & Hs & _ & -> & _).
  assert (n = 0)%nat as ->.
  { destruct n as [|n]; [reflexivity|]. exfalso.
    apply (streaming_not_stopped cap 0 (S n) 0 Hs); [lia|exact Hstop]. }
  cbn [frames_from map app] in Hsave.
  rewrite save_processed_video_skip in Hsave by apply andb_false_r.
  injection Hsave as <-.
  apply Forall_app. split.
  - eapply Forall_impl; [|exact Hev]. apply loop_event_not_writer.
  - repeat constructor.
Qed.

(** C10: [processed_frames[0]] is evaluated behind the guard
    [save_option == "Yes" and processed_frames] only, so the save path
    returns for every list of processed frames and neither camera branch
    ever ends in an exception ([IndexError] is the only one the save path
    could raise).  With no processed frame the save path renders its radio
    and nothing else, whatever the user answers; a trace of the save path
    with a video-writer event comes from a non-empty list and the answer
    "Yes"; and a camera run whose source gives no frame has no
    video-writer event. *)
Theorem save_path_never_indexes_an_empty_list model cfg fuel :
  (forall pf, exists t, save_processed_video pf = Ok tt t) /\
  save_processed_video [] = Ok tt [StWidget "Save Processed Video?"] /\
  (forall pf t,
     save_processed_video pf = Ok tt t ->
     existsb is_writer_event t = true ->
     pf <> [] /\ choose ["No"; "Yes"] (save_video_index ui) = "Yes") /\
  (forall e t, webcam_branch model cfg fuel <> Raise e t) /\
  (forall e t, ipcam_branch model cfg fuel <> Raise e t) /\
  (forall t,
     stops_at (VideoCapture (SrcIndex 0)) 0 ->
     webcam_branch model cfg fuel = Ok tt t ->
     Forall (fun e => is_writer_event e = false) t) /\
  (forall t,
     stops_at (VideoCapture (SrcUrl ip_url)) 0 ->
     ipcam_branch model cfg fuel = Ok tt t ->
     Forall (fun e => is_writer_event e = false) t).
Proof.
  split; [apply save_processed_video_Ok|].
  split; [apply save_processed_video_skip, andb_false_r|].
  split.
  { intros pf t H Hw.
    destruct (String.eqb (choose ["No"; "Yes"] (save_video_index ui)) "Yes"
              && truthy pf) eqn:Hg.
    - apply andb_prop in Hg as [Hyes Hpf]. apply String.eqb_eq in Hyes.
      split; [|exact Hyes]. now destruct pf.
    - rewrite save_processed_video_skip in H by assumption.
      injection H as <-. discriminate. }
  split; [intros e t; apply webcam_branch_no_raise|].
  split; [intros e t; apply ipcam_branch_no_raise|].
  split.
  { intros t Hstop H. destruct (start_webcam_clicked ui) eqn:Hst.
    - rewrite (webcam_branch_started _ _ _ Hst) in H.
      apply prepend_Ok_inv in H as (t1 & H & ->).
      apply Forall_app. split; [repeat constructor|].
      now apply camera_run_empty in H.
    - unfold webcam_branch, button in H. rewrite Hst in H.
      injection H as <-. repeat constructor. }
  intros t Hstop H.
  destruct (start_ipcam_clicked ui) eqn:Hst;
    [destruct (nonempty_string ip_url) eqn:Hurl|].
  - rewrite (ipcam_branch_started _ _ _ Hst Hurl) in H.
    apply prepend_Ok_inv in H as (t1 & H & ->).
    apply Forall_app. split; [repeat constructor|].
    now apply camera_run_empty in H.
  - unfold ipcam_branch, button, text_input in H. rewrite Hst in H.
    revert H. run_head. fold ip_url. rewrite Hurl. intros H.
    injection H as <-. repeat constructor.
  - unfold ipcam_branch, button in H. rewrite Hst in H.
    injection H as <-. repeat constructor.
Qed.

(** A camera run that returns, with the answer "Yes": the frames read, and
    drawn, up to the stop of the source are the frames written. *)
Lemma camera_run_saved model cfg w c fuel cap src u t :
  choose ["No"; "Yes"] (save_video_index ui) = "Yes" ->
  (processed_frames <- camera_loop model cfg w c fuel cap 0 [] ;;
   emit (CapRelease src) ;;
   save_processed_video processed_frames) = Ok u t ->
  exists n loop_t,
    streaming cap 0 n /\ stops_at cap n /\
    length (frames_from cap 0 n) = n /\
    Forall (fun e => is_writer_event e = false) loop_t /\
    match map (annotated cfg) (frames_from cap 0 n) with
    | [] => t = loop_t ++ [CapRelease src; StWidget "Save Processed Video?"]
    | first :: rest =>
        t = loop_t ++ CapRelease src :: save_widgets
            ++ video_file_events result_video_path first (first :: rest)
            ++ [StSuccess ("Video saved as " ++ result_video_path)]
    end.
Proof.
  intros Hyes H.
  apply camera_run_Ok_inv in H as (pf & loop_t & save_t & Hloop & Hsave & ->).
  pose proof (camera_loop_events model cfg w c fuel cap 0%nat []) as Hev.
  rewrite Hloop in Hev. cbn [events] in Hev.
  apply camera_loop_Ok_inv in Hloop as (n & _ & Hs & Hstop & -> & _).
  exists n, loop_t. split; [exact Hs|]. split; [exact Hstop|].
  split; [now apply frames_from_streaming|]. split.
  { eapply Forall_impl; [|exact Hev]. apply loop_event_not_writer. }
  cbn [app] in Hsave.
  destruct (map (annotated cfg) (frames_from cap 0 n)) as [|first rest].
  - rewrite save_processed_video_skip in Hsave by apply andb_false_r.
    now injection Hsave as <-.
  - rewrite save_processed_video_yes in Hsave by assumption.
    now injection Hsave as <-.
Qed.

(** C7: when the user answers "Yes" and there is a processed frame, the
    save path opens a video writer on the chosen file name with fourcc
    'mp4v', 20 frames per second and the size of the first processed
    frame, writes every processed frame in order, releases the writer and
    reports success.  In a started webcam or IP-camera run the processed
    frames are the annotated frames of the reads made up to the stop of
    the source, in read order, and nothing is written to a video file
    before the loop has ended. *)
Theorem saved_video_is_mp4v_at_20_fps model cfg fuel :
  choose ["No"; "Yes"] (save_video_index ui) = "Yes" ->
  (forall first rest,
     save_processed_video (first :: rest) =
     Ok tt (save_widgets
            ++ WriterOpen result_video_path "mp4v" 20
                          (shape1 first) (shape0 first)
            :: map (WriterWrite result_video_path) (first :: rest)
            ++ [WriterRelease result_video_path;
                StSuccess ("Video saved as " ++ result_video_path)])) /\
  (forall t,
     start_webcam_clicked ui = true ->
     webcam_branch model cfg fuel = Ok tt t ->
     exists n loop_t,
       streaming (VideoCapture (SrcIndex 0)) 0 n /\
       stops_at (VideoCapture (SrcIndex 0)) n /\
       length (frames_from (VideoCapture (SrcIndex 0)) 0 n) = n /\
       Forall (fun e => is_writer_event e = false) (webcam_prelude ++ loop_t) /\
       match map (annotated cfg)
                 (frames_from (VideoCapture (SrcIndex 0)) 0 n) with
       | [] => t = webcam_prelude ++ loop_t
                   ++ [CapRelease (SrcIndex 0);
                       StWidget "Save Processed Video?"]
       | first :: rest =>
           t = webcam_prelude ++ loop_t
               ++ CapRelease (SrcIndex 0) :: save_widgets
               ++ video_file_events result_video_path first (first :: rest)
               ++ [StSuccess ("Video saved as " ++ result_video_path)]
       end) /\
  (forall t,
     start_ipcam_clicked ui = true -> nonempty_string ip_url = true ->
     ipcam_branch model cfg fuel = Ok tt t ->
     exists n loop_t,
       streaming (VideoCapture (SrcUrl ip_url)) 0 n /\
       stops_at (VideoCapture (SrcUrl ip_url)) n /\
       length (frames_from (VideoCapture (SrcUrl ip_url)) 0 n) = n /\
       Forall (fun e => is_writer_event e = false)
              (ipcam_prelude ip_url ++ loop_t) /\
       match map (annotated cfg)
                 (frames_from (VideoCapture (SrcUrl ip_url)) 0 n) with
       | [] => t = ipcam_prelude ip_url ++ loop_t
                   ++ [CapRelease (SrcUrl ip_url);
                       StWidget "Save Processed Video?"]
       | first :: rest =>
           t = ipcam_prelude ip_url ++ loop_t
               ++ CapRelease (SrcUrl ip_url) :: save_widgets
               ++ video_file_events result_video_path first (first :: rest)
               ++ [StSuccess ("Video saved as " ++ result_video_path)]
       end).
Proof.
  intros Hyes. split.
  { intros first rest. rewrite save_processed_video_yes by assumption.
    unfold video_file_events. cbn [app]. now rewrite <- app_assoc. }
  split.
  { intros t Hst H. rewrite (webcam_branch_started _ _ _ Hst) in H.
    apply prepend_Ok_inv in H as (t1 & H & ->).
    apply (camera_run_saved _ _ _ _ _ _ _ _ _ Hyes) in H
      as (n & loop_t & Hs & Hstop & Hlen & Hnw & Ht).
    exists n, loop_t. split; [exact Hs|]. split; [exact Hstop|].
    split; [exact Hlen|]. split.
    { apply Forall_app. split; [repeat constructor|exact Hnw]. }
    destruct (map (annotated cfg) _); now rewrite Ht. }
  intros t Hst Hurl H. rewrite (ipcam_branch_started _ _ _ Hst Hurl) in H.
  apply prepend_Ok_inv in H as (t1 & H & ->).
  apply (camera_run_saved _ _ _ _ _ _ _ _ _ Hyes) in H
    as (n & loop_t & Hs & Hstop & Hlen & Hnw & Ht).
  exists n, loop_t. split; [exact Hs|]. split; [exact Hstop|].
  split; [exact Hlen|]. split.
  { apply Forall_app. split; [repeat constructor|exact Hnw]. }
  destruct (map (annotated cfg) _); now rewrite Ht.
Qed.

(** ** The script as a whole *)

Lemma sidebar_eq : sidebar = Ok sidebar_settings sidebar_events.
Proof. reflexivity. Qed.

(** No option of the radio is the one a camera branch tests for. *)
Lemma camera_guards_false (i : nat) :
  String.eqb (choose input_types i) "Webcam Detection" = false /\
  String.eqb (choose input_types i) "IP Camera Detection" = false.
Proof.
  destruct (choose_input_types i) as [-> | [-> | ->]]; split; reflexivity.
Qed.

Lemma camera_branches_message model cfg fuel i :
  option cfg = choose input_types i ->
  camera_branches model cfg fuel = emit (StWrite select_message).
Proof.
  intros Hopt. unfold camera_branches. rewrite Hopt.
  destruct (camera_guards_false i) as [-> ->]. reflexivity.
Qed.

Lemma script_body_eq model fuel :
  script_body model fuel =
  prepend (StTitle "YOLOv8 Objects Detection App" :: sidebar_events
           ++ [ModelTo model (DEVICES sidebar_settings)])
    (if device_accepted (DEVICES sidebar_settings)
     then upload_branches model sidebar_settings fuel ;;
          emit (ModelTo model (DEVICES sidebar_settings)) ;;
          emit (StWrite select_message)
     else raise RuntimeError).
Proof.
  unfold script_body, model_to. rewrite sidebar_eq. run_head.
  rewrite (camera_branches_message model sidebar_settings fuel
             (option_index ui) eq_refl).
  destruct (device_accepted (DEVICES sidebar_settings)); run_head;
    reflexivity.
Qed.

(** The run up to the first [model.to(DEVICES)]. *)
Lemma script_body_refused model fuel :
  device_accepted (DEVICES sidebar_settings) = false ->
  script_body model fuel =
  Raise RuntimeError
        (StTitle "YOLOv8 Objects Detection App" :: sidebar_events
         ++ [ModelTo model (DEVICES sidebar_settings)]).
Proof.
  intros Hdev. rewrite script_body_eq, Hdev. cbn [raise prepend].
  now rewrite app_nil_r.
Qed.

Lemma Forall_events_prepend {A} (P : event -> Prop) (ev : trace) (m : M A) :
  Forall P ev -> Forall P (events m) -> Forall P (events (prepend ev m)).
Proof. intros. rewrite events_prepend. now apply Forall_app. Qed.

(** The events of the image branch: widgets and displays around one
    detector call. *)
Lemma image_branch_events (P : event -> Prop) model cfg :
  (forall e, is_loop_event e = false -> opens_camera e = false -> P e) ->
  (forall f s, P (StImage f s)) ->
  (forall image,
     P (Detect model image (MIN_SCORE_THRES cfg) (MAX_BOXES_TO_DRAW cfg))) ->
  Forall P (events (image_branch model cfg)).
Proof.
  intros Hout Himg Hdet.
  unfold image_branch, file_uploader, display_results, process_image,
    model_call, speed_item.
  trace_inv; auto.
Qed.

(** The events of the video branch: its prelude, the loop, the release and
    the unlink. *)
Lemma video_branch_events (P : event -> Prop) model cfg fuel :
  (forall e, is_loop_event e = false -> opens_camera e = false -> P e) ->
  (forall cap k sb au si last,
     Forall P (events (upload_loop model cfg fuel cap k sb au si last))) ->
  Forall P (events (video_branch model cfg fuel)).
Proof.
  intros Hout Hloop.
  unfold video_branch, file_uploader, button, checkbox, number_input.
  trace_inv; auto.
Qed.

Lemma upload_branches_events (P : event -> Prop) model cfg fuel :
  (forall e, is_loop_event e = false -> opens_camera e = false -> P e) ->
  (forall f s, P (StImage f s)) ->
  (forall image,
     P (Detect model image (MIN_SCORE_THRES cfg) (MAX_BOXES_TO_DRAW cfg))) ->
  (forall cap k sb au si last,
     Forall P (events (upload_loop model cfg fuel cap k sb au si last))) ->
  Forall P (events (upload_branches model cfg fuel)).
Proof.
  intros Hout Himg Hdet Hloop. unfold upload_branches.
  destruct (String.eqb (option cfg) "Upload Image").
  - now apply image_branch_events.
  - destruct (String.eqb (option cfg) "Upload Video").
    + now apply video_branch_events.
    + constructor.
Qed.

Lemma loop_event_no_camera (e : event) :
  is_loop_event e = true -> opens_camera e = false.
Proof. destruct e; simpl; congruence. Qed.

Lemma upload_branches_livecam model cfg fuel :
  option cfg = "Livecam Detection" -> upload_branches model cfg fuel = ret tt.
Proof. intros Hopt. unfold upload_branches. now rewrite Hopt. Qed.

(** C8: none of the three options of the input-type radio equals
    "Webcam Detection" or "IP Camera Detection", so in every run the second
    chain of branches falls through to its [else] and only writes the
    message.  When the user selects "Livecam Detection" and [model.to]
    accepts the selected device, the whole run is: the title, the five
    sidebar controls, the two device assignments and the message.  When
    [model.to] refuses the device the run ends in [RuntimeError] at the
    first assignment, before anything but the title and the sidebar was
    rendered.  In either case no detector call is made and no camera is
    opened. *)
Theorem livecam_shows_only_the_message model fuel :
  choose input_types (option_index ui) = "Livecam Detection" ->
  (forall i,
     String.eqb (choose input_types i) "Webcam Detection" = false /\
     String.eqb (choose input_types i) "IP Camera Detection" = false) /\
  (forall cfg i fuel',
     option cfg = choose input_types i ->
     camera_branches model cfg fuel' = emit (StWrite select_message)) /\
  (device_accepted (DEVICES sidebar_settings) = true ->
   script_body model fuel =
   Ok tt (StTitle "YOLOv8 Objects Detection App" :: sidebar_events
          ++ [ModelTo model (DEVICES sidebar_settings);
              ModelTo model (DEVICES sidebar_settings);
              StWrite select_message])) /\
  (device_accepted (DEVICES sidebar_settings) = false ->
   script_body model fuel =
   Raise RuntimeError
         (StTitle "YOLOv8 Objects Detection App" :: sidebar_events
          ++ [ModelTo model (DEVICES sidebar_settings)])) /\
  Forall (fun e => is_detect e = false /\ opens_camera e = false)
         (events (script_body model fuel)).
Proof.
  intros Hlive.
  assert (Hrun : device_accepted (DEVICES sidebar_settings) = true ->
                 script_body model fuel =
                 Ok tt (StTitle "YOLOv8 Objects Detection App"
                        :: sidebar_events
                        ++ [ModelTo model (DEVICES sidebar_settings);
                            ModelTo model (DEVICES sidebar_settings);
                            StWrite select_message])).
  { intros Hdev. rewrite script_body_eq, Hdev.
    rewrite (upload_branches_livecam model sidebar_settings fuel Hlive).
    reflexivity. }
  split; [exact camera_guards_false|].
  split; [intros cfg i fuel' Hopt; now apply camera_branches_message with i|].
  split; [exact Hrun|].
  split; [apply script_body_refused|].
  destruct (device_accepted (DEVICES sidebar_settings)) eqn:Hdev.
  - rewrite (Hrun eq_refl). repeat constructor.
  - rewrite (script_body_refused model fuel Hdev). repeat constructor.
Qed.

(** C1, on the code: whatever the user selects and does, a run of the
    script opens no camera, neither [cv2.VideoCapture(0)] nor
    [cv2.VideoCapture(ip_url)]: the second chain of branches always ends in
    its [else].  The webcam and IP-camera handlers are never executed. *)
Theorem script_never_opens_a_camera model fuel :
  camera_branches model sidebar_settings fuel = emit (StWrite select_message)
  /\
  Forall (fun e => opens_camera e = false) (events (script_body model fuel)).
Proof.
  split; [now apply camera_branches_message with (option_index ui)|].
  rewrite script_body_eq. apply Forall_events_prepend; [repeat constructor|].
  destruct (device_accepted (DEVICES sidebar_settings)); [|constructor].
  apply Forall_events_bind.
  - apply upload_branches_events; auto.
    intros cap k sb au si last.
    eapply Forall_impl; [|apply upload_loop_events].
    intros e [He _]. now apply loop_event_no_camera.
  - intros _. repeat constructor.
Qed.

(** ** The detector cache *)

Lemma load_model_cached (p : Process) (m : ModelId) :
  resource_cache p = Some m -> load_model p = (m, p).
Proof. intros H. unfold load_model, cache_resource. now rewrite H. Qed.

Lemma load_model_fills_cache (p : Process) :
  resource_cache (snd (load_model p)) = Some (fst (load_model p)).
Proof.
  unfold load_model, cache_resource.
  destruct (resource_cache p) as [m|] eqn:Hc; [exact Hc|reflexivity].
Qed.

Lemma load_model_calls_cached (n : nat) (p : Process) (m : ModelId) :
  resource_cache p = Some m -> load_model_calls n p = (repeat m n, p).
Proof.
  intros H. induction n as [|n IH]; [reflexivity|].
  cbn [load_model_calls repeat]. rewrite (load_model_cached p m H).
  now rewrite IH.
Qed.

(** C6: after a first call of [load_model] in a process, every later call
    returns the object of the first call and leaves the process as it is:
    no further detector is constructed.  In a fresh process any number of
    calls builds exactly one detector, and every rerun of the script works
    with it. *)
Theorem load_model_returns_the_cached_instance (p : Process) :
  let m := fst (load_model p) in
  let p1 := snd (load_model p) in
  resource_cache p1 = Some m /\
  load_model p1 = (m, p1) /\
  (forall n, load_model_calls n p1 = (repeat m n, p1)) /\
  (models_built p1 <= S (models_built p))%nat /\
  (forall n, load_model_calls (S n) fresh_process
             = (repeat 0%nat (S n), mkProcess (Some 0%nat) 1)) /\
  (forall fuel, script p1 fuel = (p1, script_body m fuel)).
Proof.
  intros m p1. pose proof (load_model_fills_cache p) as Hc.
  fold m p1 in Hc.
  split; [exact Hc|]. split; [now apply load_model_cached|].
  split; [intros n; now apply load_model_calls_cached|]. split.
  { subst p1. unfold load_model, cache_resource.
    destruct (resource_cache p); simpl; lia. }
  split.
  { intros n. cbn [load_model_calls]. change (load_model fresh_process)
      with (0%nat, mkProcess (Some 0%nat) 1). cbv beta iota.
    now rewrite (load_model_calls_cached n (mkProcess (Some 0%nat) 1) 0%nat
                 eq_refl). }
  intros fuel. unfold script. now rewrite (load_model_cached p1 m Hc).
Qed.

(** ** Labels and detector arguments *)

Lemma fold_left_snoc_map {A B} (f : A -> B) (l : list A) : forall acc,
  fold_left (fun acc x => acc ++ [f x]) l acc = acc ++ map f l.
Proof.
  induction l as [|x l IH]; intros acc; simpl; [now rewrite app_nil_r|].
  rewrite IH. now rewrite <- app_assoc.
Qed.

Lemma collect_labels_eq cfg detections :
  collect_labels cfg detections =
  map (fun box => names (cls box))
      (py_slice_to detections (MAX_BOXES_TO_DRAW cfg)).
Proof. unfold collect_labels. now rewrite fold_left_snoc_map. Qed.

Lemma py_slice_to_length {A} (l : list A) (n : Z) :
  0 <= n -> Z.of_nat (length (py_slice_to l n)) <= n.
Proof.
  intros Hn. unfold py_slice_to.
  destruct (Z.ltb_spec n 0) as [Hneg|_]; [lia|].
  rewrite length_firstn. lia.
Qed.

Lemma collect_labels_length cfg detections :
  0 <= MAX_BOXES_TO_DRAW cfg ->
  Z.of_nat (length (collect_labels cfg detections)) <= MAX_BOXES_TO_DRAW cfg.
Proof.
  intros Hn. rewrite collect_labels_eq, length_map.
  now apply py_slice_to_length.
Qed.

Lemma camera_loop_counts model cfg w c fuel :
  0 <= MAX_BOXES_TO_DRAW cfg ->
  forall cap k pf0,
    Forall (counts_at_most (MAX_BOXES_TO_DRAW cfg))
           (events (camera_loop model cfg w c fuel cap k pf0)).
Proof.
  intros Hn. induction fuel as [|fuel IH]; intros cap k pf0; [constructor|].
  cbn [camera_loop]. unfold model_call.
  destruct (isOpened cap k); [destruct (read cap k) as [frame|]|];
    trace_inv; try exact I; try apply IH.
  simpl. now apply collect_labels_length.
Qed.

Lemma camera_loop_detects model cfg w c fuel : forall cap k pf0,
  Forall (detects_with (MIN_SCORE_THRES cfg) (MAX_BOXES_TO_DRAW cfg))
         (events (camera_loop model cfg w c fuel cap k pf0)).
Proof.
  induction fuel as [|fuel IH]; intros cap k pf0; [constructor|].
  cbn [camera_loop]. unfold model_call.
  destruct (isOpened cap k); [destruct (read cap k) as [frame|]|];
    trace_inv; try exact I; try apply IH.
  simpl. auto.
Qed.

Lemma upload_loop_detects model cfg fuel : forall cap k sb au si last,
  Forall (detects_with (MIN_SCORE_THRES cfg) (MAX_BOXES_TO_DRAW cfg))
         (events (upload_loop model cfg fuel cap k sb au si last)).
Proof.
  induction fuel as [|fuel IH]; intros cap k sb au si last; [constructor|].
  cbn [upload_loop]. unfold process_video_frame, model_call.
  destruct (isOpened cap k); [destruct (read cap k) as [frame|]|];
    trace_inv; try exact I; try apply IH.
  simpl. auto.
Qed.

(** The events of the save path are none of a frame loop. *)
Lemma save_events (P : event -> Prop) pf :
  (forall e, is_loop_event e = false -> P e) ->
  Forall P (events (save_processed_video pf)).
Proof.
  intros Hout.
  destruct (String.eqb (choose ["No"; "Yes"] (save_video_index ui)) "Yes"
            && truthy pf) eqn:Hg.
  - apply andb_prop in Hg as [Hyes Hpf]. apply String.eqb_eq in Hyes.
    destruct pf as [|first rest]; [discriminate|].
    rewrite save_processed_video_yes by assumption. cbn [events].
    unfold video_file_events.
    repeat first [ apply Forall_app; split | apply Forall_cons
                 | apply Forall_nil ];
      try (apply Hout; reflexivity).
    apply Forall_forall. intros e He. apply in_map_iff in He as (f & <- & _).
    now apply Hout.
  - rewrite save_processed_video_skip by assumption.
    repeat constructor. now apply Hout.
Qed.

Lemma webcam_branch_events (P : event -> Prop) model cfg fuel :
  (forall e, is_loop_event e = false -> P e) ->
  (forall cap k pf0,
     Forall P (events (camera_loop model cfg webcam_warning "Webcam Detection"
                                   fuel cap k pf0))) ->
  Forall P (events (webcam_branch model cfg fuel)).
Proof.
  intros Hout Hloop. unfold webcam_branch, button, selectbox.
  trace_inv; auto using save_events.
Qed.

Lemma ipcam_branch_events (P : event -> Prop) model cfg fuel :
  (forall e, is_loop_event e = false -> P e) ->
  (forall cap k pf0,
     Forall P (events (camera_loop model cfg ipcam_warning
                                   "IP Camera Detection" fuel cap k pf0))) ->
  Forall P (events (ipcam_branch model cfg fuel)).
Proof.
  intros Hout Hloop. unfold ipcam_branch, button, text_input.
  trace_inv; auto using save_events.
Qed.

Lemma counts_outside_loop bound (e : event) :
  is_loop_event e = false -> counts_at_most bound e.
Proof. destruct e; simpl; try discriminate; auto. Qed.

Lemma detects_outside_loop conf max_det (e : event) :
  is_loop_event e = false -> detects_with conf max_det e.
Proof. destruct e; simpl; try discriminate; auto. Qed.

(** C9: with a non-negative [MAX_BOXES_TO_DRAW] (the widget allows 1 to
    20), the labels collected for a frame are those of the first
    [MAX_BOXES_TO_DRAW] detections, so every per-frame report of the camera
    loop, hence of the webcam branch and of the IP-camera branch, carries a
    [detection_count] of at most [MAX_BOXES_TO_DRAW], for any detector:
    nothing is assumed about how many boxes it returns. *)
Theorem detection_count_at_most_max_boxes model cfg :
  0 <= MAX_BOXES_TO_DRAW cfg ->
  (forall detections,
     collect_labels cfg detections =
     map (fun box => names (cls box))
         (firstn (Z.to_nat (MAX_BOXES_TO_DRAW cfg)) detections) /\
     Z.of_nat (length (collect_labels cfg detections))
     <= MAX_BOXES_TO_DRAW cfg) /\
  (forall w c fuel cap k pf0,
     Forall (counts_at_most (MAX_BOXES_TO_DRAW cfg))
            (events (camera_loop model cfg w c fuel cap k pf0))) /\
  (forall fuel,
     Forall (counts_at_most (MAX_BOXES_TO_DRAW cfg))
            (events (webcam_branch model cfg fuel))) /\
  (forall fuel,
     Forall (counts_at_most (MAX_BOXES_TO_DRAW cfg))
            (events (ipcam_branch model cfg fuel))).
Proof.
  intros Hn. split.
  { intros detections. split; [|now apply collect_labels_length].
    rewrite collect_labels_eq. unfold py_slice_to.
    destruct (Z.ltb_spec (MAX_BOXES_TO_DRAW cfg) 0); [lia|reflexivity]. }
  split; [intros w c fuel; now apply camera_loop_counts|].
  split; intros fuel.
  - apply webcam_branch_events; [apply counts_outside_loop|].
    now apply camera_loop_counts.
  - apply ipcam_branch_events; [apply counts_outside_loop|].
    now apply camera_loop_counts.
Qed.

(** C4: [process_image] and [process_video_frame] call the detector with
    the module-level [MIN_SCORE_THRES] and [MAX_BOXES_TO_DRAW] as [conf]
    and [max_det] and return its first result as it is; every detector
    call of every branch carries these two values, which in a run of the
    script are the slider value and the number entered in the sidebar,
    unchanged.  With a detector that honours [conf] and [max_det] (the
    contract of the library), every box of a returned result has a score of
    at least [MIN_SCORE_THRES] and there are at most [MAX_BOXES_TO_DRAW] of
    them. *)
Theorem detector_gets_threshold_and_limit_unchanged model cfg :
  (forall frame,
     process_image model cfg frame =
     Ok (predict frame (MIN_SCORE_THRES cfg) (MAX_BOXES_TO_DRAW cfg))
        [Detect model frame (MIN_SCORE_THRES cfg) (MAX_BOXES_TO_DRAW cfg)]) /\
  (forall frame,
     process_video_frame model cfg frame =
     Ok (predict frame (MIN_SCORE_THRES cfg) (MAX_BOXES_TO_DRAW cfg))
        [Detect model frame (MIN_SCORE_THRES cfg) (MAX_BOXES_TO_DRAW cfg)]) /\
  (forall fuel,
     let sent := detects_with (MIN_SCORE_THRES cfg) (MAX_BOXES_TO_DRAW cfg) in
     Forall sent (events (image_branch model cfg)) /\
     Forall sent (events (video_branch model cfg fuel)) /\
     Forall sent (events (webcam_branch model cfg fuel)) /\
     Forall sent (events (ipcam_branch model cfg fuel))) /\
  (forall fuel,
     Forall (detects_with (min_score_entry ui) (max_boxes_entry ui))
            (events (script_body model fuel))) /\
  (respects_arguments predict -> 0 <= MAX_BOXES_TO_DRAW cfg ->
   forall frame r t,
     process_image model cfg frame = Ok r t \/
     process_video_frame model cfg frame = Ok r t \/
     model_call model frame (MIN_SCORE_THRES cfg) (MAX_BOXES_TO_DRAW cfg)
     = Ok r t ->
     Forall (fun b => (MIN_SCORE_THRES cfg <= score b)%Q) (boxes r) /\
     Z.of_nat (length (boxes r)) <= MAX_BOXES_TO_DRAW cfg).
Proof.
  split; [reflexivity|]. split; [reflexivity|]. split.
  { intros fuel sent. subst sent. split.
    { apply image_branch_events; simpl; auto.
      intros e He _. now apply detects_outside_loop. }
    split.
    { apply video_branch_events; [|apply upload_loop_detects].
      intros e He _. now apply detects_outside_loop. }
    split.
    - apply webcam_branch_events; [apply detects_outside_loop|].
      apply camera_loop_detects.
    - apply ipcam_branch_events; [apply detects_outside_loop|].
      apply camera_loop_detects. }
  split.
  { intros fuel. rewrite script_body_eq.
    apply Forall_events_prepend; [repeat constructor|].
    destruct (device_accepted (DEVICES sidebar_settings)); [|constructor].
    apply Forall_events_bind; [|intros _; repeat constructor].
    apply (upload_branches_events _ model sidebar_settings fuel).
    - intros e He _. now apply detects_outside_loop.
    - intros f s. exact I.
    - intros image. now split.
    - apply (upload_loop_detects model sidebar_settings fuel). }
  intros Hlib Hn frame r t H.
  assert (r = predict frame (MIN_SCORE_THRES cfg) (MAX_BOXES_TO_DRAW cfg))
    as ->.
  { destruct H as [H|[H|H]]; now injection H as <- _. }
  destruct (Hlib frame (MIN_SCORE_THRES cfg) (MAX_BOXES_TO_DRAW cfg))
    as [Hscore Hlen].
  split; [exact Hscore|]. lia.
Qed.

(** ** The trace of a camera loop, frame by frame *)

Lemma camera_loop_step_report model cfg w c fuel cap k pf0 frame :
  isOpened cap k = true -> read cap k = Some frame ->
  camera_loop model cfg w c (S fuel) cap k pf0 =
  prepend (frame_report model cfg c (length pf0) frame)
          (camera_loop model cfg w c fuel cap (S k)
                       (pf0 ++ [annotated cfg frame])).
Proof.
  intros Ho Hr. cbn [camera_loop]. rewrite Ho, Hr. run_head.
  unfold frame_report, frame_timings, annotated.
  replace (Z.of_nat (length (pf0 ++ [plot (predict frame (MIN_SCORE_THRES cfg)
                                             (MAX_BOXES_TO_DRAW cfg))])) - 1)
    with (Z.of_nat (length pf0))
    by (rewrite length_app; simpl; lia).
  destruct (speed (predict frame (MIN_SCORE_THRES cfg)
                           (MAX_BOXES_TO_DRAW cfg))); reflexivity.
Qed.

(** A camera loop that returns has produced the reports of the frames it
    read, numbered from the number of frames it started with, and then the
    warning if it left on a failed read. *)
Lemma camera_loop_trace model cfg w c fuel : forall cap k pf0 pf t,
  camera_loop model cfg w c fuel cap k pf0 = Ok pf t ->
  exists n,
    streaming cap k n /\ stops_at cap (k + n) /\
    length (frames_from cap k n) = n /\
    pf = pf0 ++ map (annotated cfg) (frames_from cap k n) /\
    t = camera_reports model cfg c (length pf0) (frames_from cap k n)
        ++ (if isOpened cap (k + n) then [StWarning w] else []).
Proof.
  induction fuel as [|fuel IH]; intros cap k pf0 pf t H; [discriminate|].
  destruct (isOpened cap k) eqn:Ho; [destruct (read cap k) as [frame|] eqn:Hr|].
  - rewrite (camera_loop_step_report _ _ _ _ _ _ _ _ frame Ho Hr) in H.
    apply prepend_Ok_inv in H as (t1 & H & ->).
    apply IH in H as (n & Hs & Hstop & Hlen & -> & ->).
    exists (S n). rewrite Nat.add_succ_r.
    split; [apply streaming_S; [assumption|congruence|assumption]|].
    split; [exact Hstop|]. cbn [frames_from]. rewrite Hr.
    split; [simpl; now rewrite Hlen|].
    split; [cbn [map]; now rewrite <- app_assoc|].
    cbn [camera_reports]. rewrite length_app, Nat.add_1_r.
    now rewrite <- app_assoc.
  - cbn [camera_loop] in H. rewrite Ho, Hr in H. injection H as <- <-.
    exists 0%nat. rewrite Nat.add_0_r, Ho.
    split; [apply streaming_0|]. split; [now right|].
    split; [reflexivity|]. split; [simpl; now rewrite app_nil_r|reflexivity].
  - cbn [camera_loop] in H. rewrite Ho in H. injection H as <- <-.
    exists 0%nat. rewrite Nat.add_0_r, Ho.
    split; [apply streaming_0|]. split; [now left|].
    split; [reflexivity|]. split; [simpl; now rewrite app_nil_r|reflexivity].
Qed.

Lemma detected_frames_reports model cfg c frames : forall idx,
  detected_frames (camera_reports model cfg c idx frames) = frames.
Proof.
  induction frames as [|f l IH]; intros idx; [reflexivity|].
  cbn [camera_reports]. unfold detected_frames in *.
  rewrite flat_map_app, IH. reflexivity.
Qed.

Lemma shown_images_reports model cfg c frames : forall idx,
  shown_images (camera_reports model cfg c idx frames) =
  map (fun f => reverse_channels (annotated cfg f)) frames.
Proof.
  induction frames as [|f l IH]; intros idx; [reflexivity|].
  cbn [camera_reports]. unfold shown_images in *.
  rewrite flat_map_app, IH. reflexivity.
Qed.

Lemma report_indices_reports model cfg c frames : forall idx,
  report_indices (camera_reports model cfg c idx frames) =
  map Z.of_nat (seq idx (length frames)).
Proof.
  induction frames as [|f l IH]; intros idx; [reflexivity|].
  cbn [camera_reports]. unfold report_indices in *.
  rewrite flat_map_app, IH. reflexivity.
Qed.

Lemma report_timings_reports model cfg c frames : forall idx,
  report_timings (camera_reports model cfg c idx frames) =
  map (fun f => frame_timings (predict f (MIN_SCORE_THRES cfg)
                                       (MAX_BOXES_TO_DRAW cfg))) frames.
Proof.
  induction frames as [|f l IH]; intros idx; [reflexivity|].
  cbn [camera_reports]. unfold report_timings in *.
  rewrite flat_map_app, IH. cbn [frame_report flat_map app map].
  now destruct (frame_timings _) as [[pre inf] post].
Qed.

Lemma detected_frames_app (a b : trace) :
  detected_frames (a ++ b) = detected_frames a ++ detected_frames b.
Proof. apply flat_map_app. Qed.

Lemma shown_images_app (a b : trace) :
  shown_images (a ++ b) = shown_images a ++ shown_images b.
Proof. apply flat_map_app. Qed.

Lemma report_indices_app (a b : trace) :
  report_indices (a ++ b) = report_indices a ++ report_indices b.
Proof. apply flat_map_app. Qed.

Lemma report_timings_app (a b : trace) :
  report_timings (a ++ b) = report_timings a ++ report_timings b.
Proof. apply flat_map_app. Qed.

(** One turn of the loop of the uploaded video, event by event. *)
Lemma upload_loop_step_exact model cfg fuel cap k sb au si last frame :
  isOpened cap k = true -> read cap k = Some frame ->
  upload_loop model cfg (S fuel) cap k sb au si last =
  prepend
    (Detect model frame (MIN_SCORE_THRES cfg) (MAX_BOXES_TO_DRAW cfg)
     :: (if snapshot_due k sb au si last
         then [StImage (annotated cfg frame) "Latest Snapshot"]
         else [])
     ++ [StWriteVideoFrame
           (pos_frames cap (S k))
           (length (boxes (predict frame (MIN_SCORE_THRES cfg)
                                   (MAX_BOXES_TO_DRAW cfg))))
           (classes_of (predict frame (MIN_SCORE_THRES cfg)
                                (MAX_BOXES_TO_DRAW cfg)))])
    (upload_loop model cfg fuel cap (S k)
                 (if snapshot_due k sb au si last then false else sb)
                 au si
                 (if snapshot_due k sb au si last
                  then time_time (S k) else last)).
Proof.
  intros Ho Hr. cbn [upload_loop]. rewrite Ho, Hr.
  unfold process_video_frame, snapshot_due, annotated.
  destruct (sb || _); run_head; reflexivity.
Qed.

Lemma upload_loop_detected model cfg fuel : forall cap k sb au si last u t,
  upload_loop model cfg fuel cap k sb au si last = Ok u t ->
  exists n,
    streaming cap k n /\ stops_at cap (k + n) /\
    detected_frames t = frames_from cap k n /\
    length (frames_from cap k n) = n.
Proof.
  induction fuel as [|fuel IH]; intros cap k sb au si last u t H;
    [discriminate|].
  destruct (isOpened cap k) eqn:Ho; [destruct (read cap k) as [frame|] eqn:Hr|].
  - rewrite (upload_loop_step_exact _ _ _ _ _ _ _ _ _ frame Ho Hr) in H.
    apply prepend_Ok_inv in H as (t1 & H & ->).
    apply IH in H as (n & Hs & Hstop & Hd & Hlen).
    exists (S n). rewrite Nat.add_succ_r.
    split; [apply streaming_S; [assumption|congruence|assumption]|].
    split; [exact Hstop|]. cbn [frames_from]. rewrite Hr.
    split; [|simpl; now rewrite Hlen].
    unfold detected_frames in *. cbn [app flat_map].
    rewrite !flat_map_app, Hd.
    now destruct (snapshot_due k sb au si last).
  - cbn [upload_loop] in H. rewrite Ho, Hr in H. injection H as <- <-.
    exists 0%nat. rewrite Nat.add_0_r.
    split; [apply streaming_0|]. split; [now right|]. now split.
  - cbn [upload_loop] in H. rewrite Ho in H. injection H as <- <-.
    exists 0%nat. rewrite Nat.add_0_r.
    split; [apply streaming_0|]. split; [now left|]. now split.
Qed.

(** Without a snapshot due at any turn, nothing is shown. *)
Lemma upload_loop_no_snapshot model cfg fuel : forall cap k sb au si last,
  (forall j, (k <= j)%nat -> snapshot_due j sb au si last = false) ->
  shown_images (events (upload_loop model cfg fuel cap k sb au si last)) = [].
Proof.
  induction fuel as [|fuel IH]; intros cap k sb au si last Hnot;
    [reflexivity|].
  destruct (isOpened cap k) eqn:Ho; [destruct (read cap k) as [frame|] eqn:Hr|].
  - rewrite (upload_loop_step_exact _ _ _ _ _ _ _ _ _ frame Ho Hr).
    rewrite (Hnot k (le_n k)). rewrite events_prepend.
    unfold shown_images in *. cbn [app flat_map].
    apply IH. intros j Hj. apply Hnot. lia.
  - cbn [upload_loop]. now rewrite Ho, Hr.
  - cbn [upload_loop]. now rewrite Ho.
Qed.

(** ** Properties of the frame loops beyond the claims *)

(** X1: every frame read is passed to the detector exactly once, in read
    order, and nothing else is: in a returning run of the loop of the
    uploaded video, and of a camera loop, the frames of the detector calls
    are the frames of the successful reads up to the read where the source
    stopped. *)
Theorem frames_detected_once_in_read_order model cfg cap k :
  (forall fuel sb au si last u t,
     upload_loop model cfg fuel cap k sb au si last = Ok u t ->
     exists n,
       streaming cap k n /\ stops_at cap (k + n) /\
       length (frames_from cap k n) = n /\
       detected_frames t = frames_from cap k n) /\
  (forall w c fuel pf0 pf t,
     camera_loop model cfg w c fuel cap k pf0 = Ok pf t ->
     exists n,
       streaming cap k n /\ stops_at cap (k + n) /\
       length (frames_from cap k n) = n /\
       detected_frames t = frames_from cap k n).
Proof.
  split.
  - intros fuel sb au si last u t H.
    apply upload_loop_detected in H as (n & Hs & Hstop & Hd & Hlen).
    now exists n.
  - intros w c fuel pf0 pf t H.
    apply camera_loop_trace in H as (n & Hs & Hstop & Hlen & _ & ->).
    exists n. split; [exact Hs|]. split; [exact Hstop|].
    split; [exact Hlen|].
    rewrite detected_frames_app, detected_frames_reports.
    destruct (isOpened cap (k + n)); apply app_nil_r.
Qed.

(** X2: a camera loop numbers its per-frame reports consecutively, from
    the number of frames processed before it was entered; the loops of
    the two camera branches start with no frame, so their reports are
    numbered 0, 1, 2, ... with one report per frame read. *)
Theorem camera_reports_numbered_consecutively model cfg w c fuel cap k :
  forall pf0 pf t,
    camera_loop model cfg w c fuel cap k pf0 = Ok pf t ->
    report_indices t =
    map Z.of_nat (seq (length pf0) (length pf - length pf0)) /\
    (pf0 = [] -> report_indices t = map Z.of_nat (seq 0 (length pf))).
Proof.
  intros pf0 pf t H.
  apply camera_loop_trace in H as (n & _ & _ & Hlen & -> & ->).
  assert (Hidx : report_indices
                   (camera_reports model cfg c (length pf0)
                                   (frames_from cap k n)
                    ++ (if isOpened cap (k + n) then [StWarning w] else []))
                 = map Z.of_nat (seq (length pf0) n)).
  { rewrite report_indices_app, report_indices_reports, Hlen.
    destruct (isOpened cap (k + n)); apply app_nil_r. }
  rewrite Hidx, length_app, length_map, Hlen.
  replace (length pf0 + n - length pf0)%nat with n by lia.
  split; [reflexivity|]. now intros ->.
Qed.

(** X3: what a camera loop displays is what it keeps for the video file,
    with the colour channels reversed: the images shown are the reversed
    annotated frames, in order, and reversing them once more gives back
    exactly the frames the loop added to [processed_frames]. *)
Theorem displayed_frames_are_the_kept_frames_reversed model cfg w c fuel cap k :
  forall pf0 pf t,
    camera_loop model cfg w c fuel cap k pf0 = Ok pf t ->
    (forall f, reverse_channels (reverse_channels f) = f) /\
    pf = pf0 ++ map reverse_channels (shown_images t) /\
    shown_images t = map reverse_channels (skipn (length pf0) pf).
Proof.
  intros pf0 pf t H.
  assert (Hinv : forall f, reverse_channels (reverse_channels f) = f).
  { intros [h wd [] x]; reflexivity. }
  apply camera_loop_trace in H as (n & _ & _ & _ & -> & ->).
  assert (Hshown : shown_images
                     (camera_reports model cfg c (length pf0)
                                     (frames_from cap k n)
                      ++ (if isOpened cap (k + n) then [StWarning w] else []))
                   = map (fun f => reverse_channels (annotated cfg f))
                         (frames_from cap k n)).
  { rewrite shown_images_app, shown_images_reports.
    destruct (isOpened cap (k + n)); apply app_nil_r. }
  rewrite Hshown. split; [exact Hinv|]. split.
  - f_equal. rewrite map_map. apply map_ext. intros f. now rewrite Hinv.
  - rewrite skipn_app, skipn_all, Nat.sub_diag. cbn [skipn app].
    now rewrite map_map.
Qed.

(** X4: a camera loop never fails on the timings of a result: the three
    timings of each report are those of the result's [speed] dict, a key
    that is missing counting as 0, and all three are 0 when [speed] is no
    dict. *)
Theorem camera_report_timings_default_to_zero model cfg w c fuel cap k :
  forall pf0 pf t,
    camera_loop model cfg w c fuel cap k pf0 = Ok pf t ->
    exists n,
      streaming cap k n /\ stops_at cap (k + n) /\
      report_timings t =
      map (fun f => frame_timings (predict f (MIN_SCORE_THRES cfg)
                                           (MAX_BOXES_TO_DRAW cfg)))
          (frames_from cap k n) /\
      ((forall f conf max_det, speed (predict f conf max_det) = SpeedOther) ->
       report_timings t = repeat (0%Q, 0%Q, 0%Q) n).
Proof.
  intros pf0 pf t H.
  apply camera_loop_trace in H as (n & Hs & Hstop & Hlen & _ & ->).
  exists n. split; [exact Hs|]. split; [exact Hstop|].
  assert (Ht : report_timings
                 (camera_reports model cfg c (length pf0)
                                 (frames_from cap k n)
                  ++ (if isOpened cap (k + n) then [StWarning w] else []))
               = map (fun f => frame_timings
                                 (predict f (MIN_SCORE_THRES cfg)
                                          (MAX_BOXES_TO_DRAW cfg)))
                     (frames_from cap k n)).
  { rewrite report_timings_app, report_timings_reports.
    destruct (isOpened cap (k + n)); apply app_nil_r. }
  split; [exact Ht|]. intros Hother. rewrite Ht.
  remember (frames_from cap k n) as l eqn:Hl. rewrite <- Hlen.
  clear - Hother. induction l as [|f l IH]; [reflexivity|].
  cbn [map length repeat]. rewrite IH. unfold frame_timings.
  now rewrite Hother.
Qed.

(** ** Snapshots of the uploaded video *)

Lemma upload_loop_manual model cfg fuel : forall cap k sb si last u t,
  upload_loop model cfg fuel cap k sb false si last = Ok u t ->
  shown_images t =
  if sb then map (annotated cfg) (firstn 1 (detected_frames t)) else [].
Proof.
  induction fuel as [|fuel IH]; intros cap k sb si last u t H; [discriminate|].
  destruct (isOpened cap k) eqn:Ho; [destruct (read cap k) as [frame|] eqn:Hr|].
  - rewrite (upload_loop_step_exact _ _ _ _ _ _ _ _ _ frame Ho Hr) in H.
    apply prepend_Ok_inv in H as (t1 & H & ->).
    assert (Hdue : snapshot_due k sb false si last = sb)
      by (unfold snapshot_due; cbn [andb]; apply orb_false_r).
    rewrite Hdue in H |- *. apply IH in H.
    destruct sb; unfold shown_images, detected_frames in *;
      cbn [app flat_map firstn map]; [now rewrite H|exact H].
  - cbn [upload_loop] in H. rewrite Ho, Hr in H. injection H as <- <-.
    now destruct sb.
  - cbn [upload_loop] in H. rewrite Ho in H. injection H as <- <-.
    now destruct sb.
Qed.

(** X5: with "Auto Snapshot" unchecked, a run of the loop of the uploaded
    video shows at most one snapshot: none if "Take Snapshot" was not
    clicked or the file gave no frame, otherwise exactly the annotated
    first frame (the button state is reset after it). *)
Theorem manual_snapshot_shows_first_frame_once model cfg fuel cap k :
  forall sb si last u t,
    upload_loop model cfg fuel cap k sb false si last = Ok u t ->
    (sb = false -> shown_images t = []) /\
    (sb = true ->
     shown_images t = map (annotated cfg) (firstn 1 (detected_frames t))) /\
    (length (shown_images t) <= 1)%nat.
Proof.
  intros sb si last u t H. apply upload_loop_manual in H.
  split; [now intros ->|]. split; [now intros ->|].
  rewrite H. destruct sb; [|simpl; lia].
  rewrite length_map, length_firstn. lia.
Qed.

(** X6: as long as "Take Snapshot" was not clicked and the clock has not
    advanced by [snapshot_interval] since the loop was entered, the loop of
    the uploaded video shows no snapshot, whether "Auto Snapshot" is checked
    or not and however the run ends. *)
Theorem no_snapshot_before_the_interval model cfg fuel cap k au si last :
  (forall j, (k <= j)%nat -> (time_time (S j) - last < inject_Z si)%Q) ->
  shown_images (events (upload_loop model cfg fuel cap k false au si last))
  = [].
Proof.
  intros Hearly. apply upload_loop_no_snapshot. intros j Hj.
  unfold snapshot_due. cbn [orb].
  destruct (Qle_bool (inject_Z si) (time_time (S j) - last)) eqn:Hle;
    [|apply andb_false_r].
  apply Qle_bool_iff in Hle. exfalso.
  exact (Qlt_not_le _ _ (Hearly j Hj) Hle).
Qed.

(** ** The branches and the script beyond the claims *)

(** X7: when the detector returns no box for any frame, or when
    [MAX_BOXES_TO_DRAW] is 0, every per-frame report of a camera loop has
    a count of 0 and the text "No detections". *)
Theorem reports_without_boxes_say_no_detections model cfg w c fuel :
  ((forall f conf max_det, boxes (predict f conf max_det) = []) \/
   MAX_BOXES_TO_DRAW cfg = 0) ->
  forall cap k pf0,
    Forall says_no_detections
           (events (camera_loop model cfg w c fuel cap k pf0)).
Proof.
  intros Hnone.
  assert (Hlabels : forall f,
            collect_labels cfg
              (boxes (predict f (MIN_SCORE_THRES cfg)
                              (MAX_BOXES_TO_DRAW cfg))) = []).
  { intros f. rewrite collect_labels_eq. destruct Hnone as [Hb|Hz].
    - rewrite Hb. unfold py_slice_to.
      destruct (MAX_BOXES_TO_DRAW cfg <? 0); now rewrite firstn_nil.
    - now rewrite Hz. }
  induction fuel as [|fuel IH]; intros cap k pf0; [constructor|].
  destruct (isOpened cap k) eqn:Ho; [destruct (read cap k) as [frame|] eqn:Hr|].
  - rewrite (camera_loop_step_report _ _ _ _ _ _ _ _ frame Ho Hr).
    rewrite events_prepend. apply Forall_app. split; [|apply IH].
    unfold frame_report. rewrite Hlabels. repeat constructor.
  - cbn [camera_loop]. rewrite Ho, Hr. repeat constructor.
  - cbn [camera_loop]. rewrite Ho. constructor.
Qed.

Lemma image_branch_outcome model cfg image :
  uploaded_image ui = Some image ->
  (speed_complete (speed (predict image (MIN_SCORE_THRES cfg)
                                  (MAX_BOXES_TO_DRAW cfg))) = true ->
   exists t,
     image_branch model cfg = Ok tt t /\
     detected_frames t = [image] /\
     existsb is_download t = String.eqb (save_option cfg) "Yes") /\
  (speed_complete (speed (predict image (MIN_SCORE_THRES cfg)
                                  (MAX_BOXES_TO_DRAW cfg))) = false ->
   exists e t,
     image_branch model cfg = Raise e t /\
     detected_frames t = [image] /\
     existsb is_download t = false /\
     e = match speed (predict image (MIN_SCORE_THRES cfg)
                              (MAX_BOXES_TO_DRAW cfg)) with
         | SpeedOther => TypeError
         | SpeedDict _ => KeyError
         end).
Proof.
  intros Hup. unfold image_branch, file_uploader. rewrite Hup.
  unfold process_image, display_results, speed_item, speed_complete.
  run_head.
  destruct (speed (predict image (MIN_SCORE_THRES cfg)
                           (MAX_BOXES_TO_DRAW cfg))) as [d|].
  - destruct (dict_lookup d "preprocess") as [pre|];
      [destruct (dict_lookup d "inference") as [inf|];
       [destruct (dict_lookup d "postprocess") as [post|]|]|].
    + split; [intros _|discriminate]. run_head.
      destruct (String.eqb (save_option cfg) "Yes"); run_head;
        eexists; (split; [reflexivity|]); split; reflexivity.
    + split; [discriminate|intros _].
      eexists _, _. split; [reflexivity|]. repeat split; reflexivity.
    + split; [discriminate|intros _].
      eexists _, _. split; [reflexivity|]. repeat split; reflexivity.
    + split; [discriminate|intros _].
      eexists _, _. split; [reflexivity|]. repeat split; reflexivity.
  - split; [discriminate|intros _].
    eexists _, _. split; [reflexivity|]. repeat split; reflexivity.
Qed.

(** X8: with an image uploaded, the image branch calls the detector once,
    on that image.  It returns exactly when the [speed] of the result is a
    dict with the three timings, and then offers the download button exactly
    when [save_option] is "Yes"; otherwise it ends in [TypeError] ([speed]
    is no dict) or [KeyError] (a timing is missing), after the detector
    call and without a download button. *)
Theorem image_branch_returns_iff_speed_complete model cfg image :
  uploaded_image ui = Some image ->
  (speed_complete (speed (predict image (MIN_SCORE_THRES cfg)
                                  (MAX_BOXES_TO_DRAW cfg))) = true ->
   exists t,
     image_branch model cfg = Ok tt t /\
     detected_frames t = [image] /\
     existsb is_download t = String.eqb (save_option cfg) "Yes") /\
  (speed_complete (speed (predict image (MIN_SCORE_THRES cfg)
                                  (MAX_BOXES_TO_DRAW cfg))) = false ->
   exists e t,
     image_branch model cfg = Raise e t /\
     detected_frames t = [image] /\
     existsb is_download t = false /\
     e = match speed (predict image (MIN_SCORE_THRES cfg)
                              (MAX_BOXES_TO_DRAW cfg)) with
         | SpeedOther => TypeError
         | SpeedDict _ => KeyError
         end).
Proof. apply image_branch_outcome. Qed.

Lemma choose_In (options : list string) (i : nat) :
  options <> [] -> In (choose options i) options.
Proof.
  intros Hne. unfold choose.
  destruct (nth_in_or_default i options (hd "" options)) as [Hin | ->];
    [exact Hin|].
  destruct options; [congruence|now left].
Qed.

Lemma loop_event_no_model_to (e : event) :
  is_loop_event e = true -> is_model_to e = false.
Proof. destruct e; simpl; congruence. Qed.

Lemma upload_branches_no_model_to model cfg fuel :
  Forall (fun e => is_model_to e = false)
         (events (upload_branches model cfg fuel)).
Proof.
  unfold upload_branches.
  destruct (String.eqb (option cfg) "Upload Image");
    [|destruct (String.eqb (option cfg) "Upload Video"); [|constructor]].
  - unfold image_branch, file_uploader, display_results, process_image,
      model_call, speed_item.
    trace_inv; reflexivity.
  - unfold video_branch, file_uploader, button, checkbox, number_input.
    trace_inv; try reflexivity.
    eapply Forall_impl; [|apply upload_loop_events].
    intros e [He _]. now apply loop_event_no_model_to.
Qed.

(** X9: the sidebar always yields offered values (an input type, a device
    and a save answer from the lists of the widgets), and every run of the
    script that returns has the same frame, whatever was selected: title,
    sidebar, [model.to(DEVICES)], the events of the upload branch, then
    [model.to(DEVICES)] again and the message "Select 'Webcam Detection' or
    'IP Camera Detection' to start." as the last event, also after an image
    or a video was processed.  The device is assigned exactly these two
    times. *)
Theorem returning_run_ends_with_the_message model fuel t :
  script_body model fuel = Ok tt t ->
  In (option sidebar_settings) input_types /\
  In (DEVICES sidebar_settings) ["cpu"; "0"; "1"; "2"] /\
  In (save_option sidebar_settings) ["Yes"; "No"] /\
  exists mid,
    upload_branches model sidebar_settings fuel = Ok tt mid /\
    Forall (fun e => is_model_to e = false) mid /\
    t = StTitle "YOLOv8 Objects Detection App" :: sidebar_events
        ++ ModelTo model (DEVICES sidebar_settings) :: mid
        ++ [ModelTo model (DEVICES sidebar_settings);
            StWrite select_message].
Proof.
  intros H.
  split; [apply choose_In; discriminate|].
  split; [apply choose_In; discriminate|].
  split; [apply choose_In; discriminate|].
  rewrite script_body_eq in H. apply prepend_Ok_inv in H as (t1 & H & ->).
  destruct (device_accepted (DEVICES sidebar_settings)); [|discriminate].
  apply bind_Ok_inv in H as ([] & mid & t2 & Hup & H & ->).
  injection H as <-. exists mid. split; [exact Hup|]. split.
  - pose proof (upload_branches_no_model_to model sidebar_settings fuel)
      as Hno.
    now rewrite Hup in Hno.
  - cbn [app]. rewrite <- ?app_assoc. reflexivity.
Qed.

Lemma save_no_open pf :
  Forall (fun e => is_cap_open e = false) (events (save_processed_video pf)).
Proof.
  unfold save_processed_video, radio, text_input, py_index0.
  trace_inv; try reflexivity.
  rewrite write_frames_eq. cbn [events]. apply Forall_forall.
  intros e He. apply in_map_iff in He as (f & <- & _). reflexivity.
Qed.

Lemma camera_run_no_open model cfg w c fuel cap src :
  Forall (fun e => is_cap_open e = false)
         (events (processed_frames <- camera_loop model cfg w c fuel cap 0 [] ;;
                  emit (CapRelease src) ;;
                  save_processed_video processed_frames)).
Proof.
  trace_inv; try reflexivity.
  - eapply Forall_impl; [|apply camera_loop_events].
    intros e He. destruct e; simpl in *; congruence.
  - apply save_no_open.
Qed.

Lemma filter_none {A} (f : A -> bool) (l : list A) :
  Forall (fun x => f x = false) l -> filter f l = [].
Proof.
  induction 1 as [|x l Hx _ IH]; [reflexivity|]. simpl. now rewrite Hx.
Qed.

(** X10: a camera branch opens its capture only after its start button
    was clicked, the IP-camera branch only with a non-empty URL besides,
    and then exactly once: the capture-opening events of a run of the
    webcam branch are the single [cv2.VideoCapture(0)] when the button was
    clicked and none otherwise; those of the IP-camera branch are the
    single [cv2.VideoCapture(ip_url)] when the button was clicked and the
    URL is not empty, and none otherwise; this however the run ends.
    Without the click a branch renders its button and nothing else; with
    the click but an empty URL the IP-camera branch renders its button and
    the URL field and nothing else. *)
Theorem cameras_open_only_when_started model cfg fuel :
  (start_webcam_clicked ui = false ->
   webcam_branch model cfg fuel = Ok tt [StWidget "Start Webcam Detection"]) /\
  (start_ipcam_clicked ui = false ->
   ipcam_branch model cfg fuel
   = Ok tt [StWidget "Start IP Camera Detection"]) /\
  (start_ipcam_clicked ui = true -> nonempty_string ip_url = false ->
   ipcam_branch model cfg fuel
   = Ok tt [StWidget "Start IP Camera Detection";
            StWidget "Enter IP Camera URL (e.g., rtsp:// or http://)"]) /\
  filter is_cap_open (events (webcam_branch model cfg fuel))
  = (if start_webcam_clicked ui then [CapOpen (SrcIndex 0)] else []) /\
  filter is_cap_open (events (ipcam_branch model cfg fuel))
  = (if start_ipcam_clicked ui && nonempty_string ip_url
     then [CapOpen (SrcUrl ip_url)] else []) /\
  (forall e,
     In e (events (webcam_branch model cfg fuel)) -> is_cap_open e = true ->
     start_webcam_clicked ui = true /\ e = CapOpen (SrcIndex 0)) /\
  (forall e,
     In e (events (ipcam_branch model cfg fuel)) -> is_cap_open e = true ->
     start_ipcam_clicked ui = true /\ nonempty_string ip_url = true /\
     e = CapOpen (SrcUrl ip_url)).
Proof.
  assert (Hweb0 : start_webcam_clicked ui = false ->
                  webcam_branch model cfg fuel
                  = Ok tt [StWidget "Start Webcam Detection"]).
  { intros Hst. unfold webcam_branch, button. now rewrite Hst. }
  assert (Hip0 : start_ipcam_clicked ui = false ->
                 ipcam_branch model cfg fuel
                 = Ok tt [StWidget "Start IP Camera Detection"]).
  { intros Hst. unfold ipcam_branch, button. now rewrite Hst. }
  assert (Hip1 : start_ipcam_clicked ui = true ->
                 nonempty_string ip_url = false ->
                 ipcam_branch model cfg fuel
                 = Ok tt [StWidget "Start IP Camera Detection";
                          StWidget
                            "Enter IP Camera URL (e.g., rtsp:// or http://)"]).
  { intros Hst Hurl. unfold ipcam_branch, button, text_input. rewrite Hst.
    run_head. fold ip_url. now rewrite Hurl. }
  assert (Hweb : filter is_cap_open (events (webcam_branch model cfg fuel))
                 = (if start_webcam_clicked ui
                    then [CapOpen (SrcIndex 0)] else [])).
  { destruct (start_webcam_clicked ui) eqn:Hst.
    - rewrite (webcam_branch_started _ _ _ Hst), events_prepend, filter_app.
      rewrite (filter_none is_cap_open _
                 (camera_run_no_open model cfg webcam_warning
                    "Webcam Detection" fuel (VideoCapture (SrcIndex 0))
                    (SrcIndex 0))).
      reflexivity.
    - now rewrite (Hweb0 eq_refl). }
  assert (Hip : filter is_cap_open (events (ipcam_branch model cfg fuel))
                = (if start_ipcam_clicked ui && nonempty_string ip_url
                   then [CapOpen (SrcUrl ip_url)] else [])).
  { destruct (start_ipcam_clicked ui) eqn:Hst;
      [destruct (nonempty_string ip_url) eqn:Hurl|].
    - rewrite (ipcam_branch_started _ _ _ Hst Hurl), events_prepend,
        filter_app.
      rewrite (filter_none is_cap_open _
                 (camera_run_no_open model cfg ipcam_warning
                    "IP Camera Detection" fuel
                    (VideoCapture (SrcUrl ip_url)) (SrcUrl ip_url))).
      reflexivity.
    - now rewrite (Hip1 eq_refl eq_refl).
    - now rewrite (Hip0 eq_refl). }
  split; [exact Hweb0|]. split; [exact Hip0|]. split; [exact Hip1|].
  split; [exact Hweb|]. split; [exact Hip|]. split.
  - intros e Hin Hopen.
    assert (Hf : In e (filter is_cap_open
                          (events (webcam_branch model cfg fuel))))
      by (apply filter_In; now split).
    rewrite Hweb in Hf. destruct (start_webcam_clicked ui); [|destruct Hf].
    destruct Hf as [<-|[]]. now split.
  - intros e Hin Hopen.
    assert (Hf : In e (filter is_cap_open
                          (events (ipcam_branch model cfg fuel))))
      by (apply filter_In; now split).
    rewrite Hip in Hf.
    destruct (start_ipcam_clicked ui); [|destruct Hf].
    destruct (nonempty_string ip_url); [|destruct Hf].
    destruct Hf as [<-|[]]. now repeat split.
Qed.

Lemma stop_unique cap k n m :
  streaming cap k n -> stops_at cap (k + n) ->
  streaming cap k m -> stops_at cap (k + m) -> n = m.
Proof.
  intros Hn Hsn Hm Hsm.
  destruct (Nat.lt_trichotomy n m) as [Hlt|[Heq|Hgt]]; [|exact Heq|].
  - exfalso. apply (streaming_not_stopped cap k m (k + n) Hm); [lia|exact Hsn].
  - exfalso. apply (streaming_not_stopped cap k n (k + m) Hn); [lia|exact Hsm].
Qed.

(** X11: a run of the whole script with "Upload Video" selected, a device
    that [model.to] accepts and a file uploaded, on a file that gives [n]
    frames and then stops, returns once the fuel exceeds [n]: between the
    two device assignments it
    writes the temporary file, opens the capture on it, passes the [n]
    frames to the detector in order, releases the capture and unlinks the
    file; the message of the camera chain closes the run. *)
Theorem uploaded_video_run_end_to_end model fuel data n :
  choose input_types (option_index ui) = "Upload Video" ->
  uploaded_video ui = Some data ->
  device_accepted (DEVICES sidebar_settings) = true ->
  streaming (VideoCapture (SrcFile tfile_name)) 0 n ->
  stops_at (VideoCapture (SrcFile tfile_name)) n ->
  (n < fuel)%nat ->
  exists loop_t,
    detected_frames loop_t = frames_from (VideoCapture (SrcFile tfile_name)) 0 n
    /\
    length (frames_from (VideoCapture (SrcFile tfile_name)) 0 n) = n /\
    Forall (fun e => is_loop_event e = true) loop_t /\
    script_body model fuel =
    Ok tt (StTitle "YOLOv8 Objects Detection App" :: sidebar_events
           ++ ModelTo model (DEVICES sidebar_settings)
           :: (video_prelude tfile_name data ++ loop_t
               ++ [CapRelease (SrcFile tfile_name); OsUnlink tfile_name])
           ++ [ModelTo model (DEVICES sidebar_settings);
               StWrite select_message]).
Proof.
  intros Hopt Hup Hdev Hs Hstop Hfuel.
  destruct (upload_loop_total model sidebar_settings
              (VideoCapture (SrcFile tfile_name)) n fuel 0%nat
              (snapshot_clicked ui) (auto_snapshot_checked ui)
              (snapshot_interval_entry ui) (time_time 0) Hs Hstop Hfuel)
    as [loop_t Hloop].
  exists loop_t.
  pose proof (upload_loop_events model sidebar_settings fuel
                (VideoCapture (SrcFile tfile_name)) 0%nat
                (snapshot_clicked ui) (auto_snapshot_checked ui)
                (snapshot_interval_entry ui) (time_time 0)) as Hev.
  rewrite Hloop in Hev. cbn [events] in Hev.
  destruct (upload_loop_detected _ _ _ _ _ _ _ _ _ _ _ Hloop)
    as (m & Hsm & Hstopm & Hd & Hlen).
  assert (m = n) as ->
    by (apply (stop_unique (VideoCapture (SrcFile tfile_name)) 0%nat m n);
        assumption).
  split; [exact Hd|]. split; [exact Hlen|]. split.
  { eapply Forall_impl; [|exact Hev]. now intros e [He _]. }
  rewrite script_body_eq, Hdev. unfold upload_branches.
  cbn [option sidebar_settings]. rewrite Hopt.
  cbn [String.eqb Ascii.eqb Bool.eqb].
  rewrite (video_branch_uploaded _ _ _ data Hup), Hloop. run_head.
  cbn [prepend app]. f_equal. f_equal. now rewrite <- !app_assoc.
Qed.

Lemma image_branch_no_message model cfg :
  Forall (fun e => e <> StWrite select_message)
         (events (image_branch model cfg)).
Proof.
  unfold image_branch, file_uploader, display_results, process_image,
    model_call, speed_item.
  trace_inv; discriminate.
Qed.

Lemma upload_branches_image model cfg fuel :
  option cfg = "Upload Image" ->
  upload_branches model cfg fuel = image_branch model cfg.
Proof. intros Hopt. unfold upload_branches. now rewrite Hopt. Qed.

(** X12: a run of the whole script with "Upload Image" selected and an
    image uploaded.  When [model.to] refuses the selected device the run
    ends in [RuntimeError] at the first device assignment, right after
    the sidebar, with no detector call.  When it accepts the device: if
    the [speed] of the result is a dict with the three timings the run
    returns, with one detector call, on the image, and the message of the
    camera chain as its last event; if not, the exception of
    [display_results] ends the run uncaught: the device was assigned once,
    the second assignment and the message are never reached. *)
Theorem uploaded_image_run_end_to_end model fuel image :
  choose input_types (option_index ui) = "Upload Image" ->
  uploaded_image ui = Some image ->
  (device_accepted (DEVICES sidebar_settings) = false ->
   script_body model fuel =
   Raise RuntimeError
         (StTitle "YOLOv8 Objects Detection App" :: sidebar_events
          ++ [ModelTo model (DEVICES sidebar_settings)]) /\
   detected_frames (events (script_body model fuel)) = []) /\
  (device_accepted (DEVICES sidebar_settings) = true ->
   speed_complete (speed (predict image (min_score_entry ui)
                                  (max_boxes_entry ui))) = true ->
   exists t,
     script_body model fuel = Ok tt t /\
     detected_frames t = [image] /\
     length (filter is_model_to t) = 2%nat /\
     exists t', t = t' ++ [StWrite select_message]) /\
  (device_accepted (DEVICES sidebar_settings) = true ->
   speed_complete (speed (predict image (min_score_entry ui)
                                  (max_boxes_entry ui))) = false ->
   exists e t,
     script_body model fuel = Raise e t /\
     e = match speed (predict image (min_score_entry ui)
                              (max_boxes_entry ui)) with
         | SpeedOther => TypeError
         | SpeedDict _ => KeyError
         end /\
     detected_frames t = [image] /\
     length (filter is_model_to t) = 1%nat /\
     ~ In (StWrite select_message) t).
Proof.
  intros Hopt Hup.
  destruct (image_branch_outcome model sidebar_settings image Hup)
    as [Hok Hbad].
  pose proof (upload_branches_no_model_to model sidebar_settings fuel) as Hno.
  rewrite (upload_branches_image model sidebar_settings fuel Hopt) in Hno.
  split.
  { intros Hdev. rewrite (script_body_refused model fuel Hdev).
    split; [reflexivity|]. reflexivity. }
  split; intros Hdev Hsp.
  - destruct (Hok Hsp) as (t & Ht & Hd & _). rewrite Ht in Hno.
    cbn [events] in Hno.
    exists (StTitle "YOLOv8 Objects Detection App" :: sidebar_events
            ++ ModelTo model (DEVICES sidebar_settings) :: t
            ++ [ModelTo model (DEVICES sidebar_settings);
                StWrite select_message]).
    split.
    { rewrite script_body_eq, Hdev,
        (upload_branches_image model sidebar_settings fuel Hopt), Ht.
      run_head. cbn [prepend app]. now rewrite <- !app_assoc. }
    split.
    { unfold sidebar_events. cbn [app]. unfold detected_frames in *.
      cbn [flat_map app]. rewrite flat_map_app, Hd. reflexivity. }
    split.
    { unfold sidebar_events. cbn [app filter is_model_to length].
      rewrite filter_app, (filter_none is_model_to t Hno). reflexivity. }
    exists (StTitle "YOLOv8 Objects Detection App" :: sidebar_events
            ++ ModelTo model (DEVICES sidebar_settings) :: t
            ++ [ModelTo model (DEVICES sidebar_settings)]).
    repeat first [rewrite <- app_assoc | progress cbn [app]]. reflexivity.
  - destruct (Hbad Hsp) as (e & t & Ht & Hd & _ & He). rewrite Ht in Hno.
    cbn [events] in Hno.
    exists e, (StTitle "YOLOv8 Objects Detection App" :: sidebar_events
               ++ ModelTo model (DEVICES sidebar_settings) :: t).
    split.
    { rewrite script_body_eq, Hdev,
        (upload_branches_image model sidebar_settings fuel Hopt), Ht.
      reflexivity. }
    split; [exact He|]. split.
    { unfold sidebar_events. cbn [app]. unfold detected_frames in *.
      cbn [flat_map app]. exact Hd. }
    split.
    { unfold sidebar_events. cbn [app filter is_model_to length].
      now rewrite (filter_none is_model_to t Hno). }
    unfold sidebar_events. cbn [app In]. intros Hin.
    repeat (destruct Hin as [Heq|Hin]; [discriminate Heq|]).
    pose proof (image_branch_no_message model sidebar_settings) as Hev.
    rewrite Ht in Hev. cbn [events] in Hev. rewrite Forall_forall in Hev.
    exact (Hev _ Hin eq_refl).
Qed.

Lemma upload_loop_counts model cfg fuel : forall cap k sb au si last u t,
  upload_loop model cfg fuel cap k sb au si last = Ok u t ->
  video_report_counts t =
  map (fun f => length (boxes (predict f (MIN_SCORE_THRES cfg)
                                       (MAX_BOXES_TO_DRAW cfg))))
      (detected_frames t).
Proof.
  induction fuel as [|fuel IH]; intros cap k sb au si last u t H;
    [discriminate|].
  destruct (isOpened cap k) eqn:Ho; [destruct (read cap k) as [frame|] eqn:Hr|].
  - rewrite (upload_loop_step_exact _ _ _ _ _ _ _ _ _ frame Ho Hr) in H.
    apply prepend_Ok_inv in H as (t1 & H & ->). apply IH in H.
    unfold video_report_counts, detected_frames in *.
    destruct (snapshot_due k sb au si last);
      cbn [app flat_map map]; now rewrite H.
  - cbn [upload_loop] in H. rewrite Ho, Hr in H. now injection H as <- <-.
  - cbn [upload_loop] in H. rewrite Ho in H. now injection H as <- <-.
Qed.

(** X13: the per-frame line of the uploaded video reports
    [len(result.boxes)], the number of boxes the detector returned for that
    frame, without the slice the camera loops apply: it is at most
    [MAX_BOXES_TO_DRAW] when the detector honours [max_det], and not by the
    loop itself. *)
Theorem video_lines_count_all_returned_boxes model cfg fuel cap k :
  forall sb au si last u t,
    upload_loop model cfg fuel cap k sb au si last = Ok u t ->
    video_report_counts t =
    map (fun f => length (boxes (predict f (MIN_SCORE_THRES cfg)
                                         (MAX_BOXES_TO_DRAW cfg))))
        (detected_frames t) /\
    (respects_arguments predict -> 0 <= MAX_BOXES_TO_DRAW cfg ->
     Forall (fun n => Z.of_nat n <= MAX_BOXES_TO_DRAW cfg)
            (video_report_counts t)).
Proof.
  intros sb au si last u t H. apply upload_loop_counts in H.
  split; [exact H|]. intros Hlib Hn. rewrite H.
  apply Forall_forall. intros n Hin. apply in_map_iff in Hin as (f & <- & _).
  destruct (Hlib f (MIN_SCORE_THRES cfg) (MAX_BOXES_TO_DRAW cfg)) as [_ Hlen].
  lia.
Qed.

End Script.

(** ** The theorems at sample inputs *)

Lemma Forall_firstn_of {A} (P : A -> Prop) (n : nat) : forall l,
  Forall P l -> Forall P (firstn n l).
Proof.
  induction n as [|n IH]; intros l Hl; [constructor|].
  destruct Hl as [|x l Hx Hl]; [constructor|].
  simpl. constructor; [exact Hx|now apply IH].
Qed.

Lemma sample_predict_respects : respects_arguments sample_predict.
Proof.
  intros frame conf max_det. cbn [sample_predict boxes]. split.
  - apply Forall_firstn_of, Forall_forall. intros b Hb.
    apply filter_In in Hb as [_ Hb]. now apply Qle_bool_iff.
  - rewrite length_firstn. lia.
Qed.

Lemma endless_capture_streams (k n : nat) : streaming endless_capture k n.
Proof. intros i _. split; [reflexivity|discriminate]. Qed.

Lemma loops_leave_only_when_source_stops_witness :
  streaming endless_capture 0 3 /\
  (exists t,
     upload_loop sample_predict sample_names sample_clock 0%nat sample_cfg
                 3 endless_capture 0 false true 1 0%Q = OutOfFuel t /\
     length (filter is_detect t) = 3%nat) /\
  (exists t,
     camera_loop sample_predict sample_names 0%nat sample_cfg webcam_warning
                 "Webcam Detection" 3 endless_capture 0 [] = OutOfFuel t /\
     length (filter is_detect t) = 3%nat).
Proof.
  pose proof (loops_leave_only_when_source_stops
                sample_predict sample_names sample_clock 0%nat sample_cfg
                endless_capture 0%nat 3%nat (endless_capture_streams 0 3))
    as (Hupload & Hcamera & _).
  split; [apply endless_capture_streams|]. split.
  - apply Hupload. lia.
  - apply Hcamera. lia.
Defined.

Lemma failed_read_leaves_the_loop_witness :
  isOpened (capture_of []) 0 = true /\
  read (capture_of []) 0 = None /\
  camera_loop sample_predict sample_names 0%nat sample_cfg webcam_warning
              "Webcam Detection" 1 (capture_of []) 0 []
  = Ok [] [StWarning webcam_warning] /\
  camera_loop sample_predict sample_names 0%nat sample_cfg ipcam_warning
              "IP Camera Detection" 1 (capture_of []) 0 []
  = Ok [] [StWarning ipcam_warning] /\
  upload_loop sample_predict sample_names sample_clock 0%nat sample_cfg
              1 (capture_of []) 0 false true 1 0%Q = Ok tt [].
Proof.
  pose proof (failed_read_leaves_the_loop
                sample_predict sample_names sample_clock 0%nat sample_cfg
                (capture_of []) 0%nat eq_refl eq_refl)
    as (Hweb & Hip & Hup & _).
  split; [reflexivity|]. split; [reflexivity|].
  split; [apply Hweb|]. split; [apply Hip|apply Hup].
Defined.

(** C2 as stated fails on the loop of the uploaded video: on a file of one
    frame the second read fails while the handle is open, the loop leaves,
    and no warning was displayed. *)
Lemma upload_failed_read_shows_no_warning :
  isOpened (capture_of [sample_frame 0]) 1 = true /\
  read (capture_of [sample_frame 0]) 1 = None /\
  exists t,
    upload_loop sample_predict sample_names sample_clock 0%nat sample_cfg
                5 (capture_of [sample_frame 0]) 0 false false 5 0%Q
    = Ok tt t /\
    ~ exists e, In e t /\ is_warning e = true.
Proof.
  split; [reflexivity|]. split; [reflexivity|].
  eexists. split; [vm_compute; reflexivity|].
  intros (e & Hin & Hw). simpl in Hin.
  destruct Hin as [<-|[<-|[]]]; discriminate.
Qed.

Lemma sample_file_streams :
  streaming (sample_VideoCapture (SrcFile "/tmp/upload")) 0 2 /\
  stops_at (sample_VideoCapture (SrcFile "/tmp/upload")) 2.
Proof.
  split; [|now right].
  intros i Hi. destruct i as [|[|i]]; [| |lia];
    (split; [reflexivity|discriminate]).
Qed.

Lemma capture_released_and_file_deleted_witness :
  uploaded_video livecam_user = Some "bytes" /\
  exists t loop_t,
    video_branch sample_predict sample_names sample_VideoCapture sample_clock
                 "/tmp/upload" livecam_user 0%nat sample_cfg 3 = Ok tt t /\
    t = video_prelude "/tmp/upload" "bytes" ++ loop_t
        ++ [CapRelease (SrcFile "/tmp/upload"); OsUnlink "/tmp/upload"].
Proof.
  pose proof (capture_released_and_file_deleted
                sample_predict sample_names sample_VideoCapture sample_clock
                "/tmp/upload" livecam_user 0%nat sample_cfg 3%nat)
    as (Hvideo & _ & _ & Hreturns).
  destruct (Hreturns 2%nat ltac:(lia)) as (Hv & _).
  destruct sample_file_streams as [Hs Hstop].
  destruct (Hv "bytes" eq_refl Hs Hstop) as [t Ht].
  destruct (Hvideo "bytes" t eq_refl Ht) as (loop_t & _ & _ & _ & _ & Heq).
  split; [reflexivity|]. now exists t, loop_t.
Defined.

Lemma saved_video_is_mp4v_at_20_fps_witness :
  choose ["No"; "Yes"] (save_video_index livecam_user) = "Yes" /\
  save_processed_video livecam_user [sample_frame 4; sample_frame 5] =
  Ok tt [StWidget "Save Processed Video?";
         StWidget "Enter the filename to save the video (e.g., 'result.mp4')";
         WriterOpen "result.mp4" "mp4v" 20 640 480;
         WriterWrite "result.mp4" (sample_frame 4);
         WriterWrite "result.mp4" (sample_frame 5);
         WriterRelease "result.mp4";
         StSuccess "Video saved as result.mp4"].
Proof.
  pose proof (saved_video_is_mp4v_at_20_fps
                sample_predict sample_names sample_VideoCapture livecam_user
                0%nat sample_cfg 5%nat eq_refl) as (Hsave & _).
  split; [reflexivity|]. exact (Hsave (sample_frame 4) [sample_frame 5]).
Defined.

Lemma save_path_never_indexes_an_empty_list_witness :
  stops_at closed_capture 0 /\
  webcam_branch greedy_predict sample_names (fun _ => closed_capture)
                livecam_user 0%nat sample_cfg 1
  = Ok tt (webcam_prelude
           ++ [CapRelease (SrcIndex 0); StWidget "Save Processed Video?"]) /\
  Forall (fun e => is_writer_event e = false)
         (webcam_prelude
          ++ [CapRelease (SrcIndex 0); StWidget "Save Processed Video?"]).
Proof.
  pose proof (save_path_never_indexes_an_empty_list
                greedy_predict sample_names (fun _ => closed_capture)
                livecam_user 0%nat sample_cfg 1%nat)
    as (_ & _ & _ & _ & _ & Hweb & _).
  split; [now left|]. split; [reflexivity|].
  apply Hweb; [now left|reflexivity].
Defined.

Lemma detection_count_at_most_max_boxes_witness :
  0 <= MAX_BOXES_TO_DRAW small_cfg /\
  length (boxes (greedy_predict (sample_frame 0) (2 # 5) 2)) = 3%nat /\
  collect_labels sample_names small_cfg
                 (boxes (greedy_predict (sample_frame 0) (2 # 5) 2))
  = ["gun"; "knife"] /\
  Forall (counts_at_most 2)
         (events (webcam_branch greedy_predict sample_names
                                sample_VideoCapture livecam_user 0%nat
                                small_cfg 10)).
Proof.
  pose proof (detection_count_at_most_max_boxes
                greedy_predict sample_names sample_VideoCapture livecam_user
                0%nat small_cfg ltac:(simpl; lia)) as (_ & _ & Hweb & _).
  split; [simpl; lia|]. split; [reflexivity|]. split; [reflexivity|].
  apply Hweb.
Defined.

Lemma detector_gets_threshold_and_limit_unchanged_witness :
  respects_arguments sample_predict /\
  0 <= MAX_BOXES_TO_DRAW sample_cfg /\
  process_video_frame sample_predict 0%nat sample_cfg (sample_frame 0)
  = Ok (sample_predict (sample_frame 0) (2 # 5) 5)
       [Detect 0%nat (sample_frame 0) (2 # 5) 5] /\
  Forall (fun b => (2 # 5 <= score b)%Q)
         (boxes (sample_predict (sample_frame 0) (2 # 5) 5)) /\
  Z.of_nat (length (boxes (sample_predict (sample_frame 0) (2 # 5) 5))) <= 5.
Proof.
  pose proof (detector_gets_threshold_and_limit_unchanged
                sample_predict sample_names cpu_only sample_VideoCapture
                sample_clock
                "/tmp/upload" livecam_user 0%nat sample_cfg)
    as (_ & Hframe & _ & _ & Hkept).
  split; [exact sample_predict_respects|]. split; [simpl; lia|].
  split; [apply Hframe|].
  apply (Hkept sample_predict_respects ltac:(simpl; lia) (sample_frame 0)
               _ _ (or_intror (or_introl (Hframe (sample_frame 0))))).
Defined.

Lemma livecam_shows_only_the_message_witness :
  choose input_types (option_index livecam_user) = "Livecam Detection" /\
  cpu_only (DEVICES (sidebar_settings livecam_user)) = true /\
  script_body sample_predict sample_names cpu_only sample_VideoCapture
              sample_clock "/tmp/upload" livecam_user 0%nat 10
  = Ok tt [StTitle "YOLOv8 Objects Detection App";
           StSidebarTitle "Detection Options Config";
           StWidget "1. Select Input Type:";
           StWidget "2. Maximum Boxes To Draw";
           StWidget "3. Select Device";
           StWidget "4. Min Confidence Score Threshold";
           StWidget "5. Save Result?";
           ModelTo 0%nat "cpu"; ModelTo 0%nat "cpu";
           StWrite select_message] /\
  choose input_types (option_index gpu_user) = "Livecam Detection" /\
  cpu_only (DEVICES (sidebar_settings gpu_user)) = false /\
  script_body sample_predict sample_names cpu_only sample_VideoCapture
              sample_clock "/tmp/upload" gpu_user 0%nat 10
  = Raise RuntimeError
          [StTitle "YOLOv8 Objects Detection App";
           StSidebarTitle "Detection Options Config";
           StWidget "1. Select Input Type:";
           StWidget "2. Maximum Boxes To Draw";
           StWidget "3. Select Device";
           StWidget "4. Min Confidence Score Threshold";
           StWidget "5. Save Result?";
           ModelTo 0%nat "0"].
Proof.
  pose proof (livecam_shows_only_the_message
                sample_predict sample_names cpu_only sample_VideoCapture
                sample_clock "/tmp/upload" livecam_user 0%nat 10%nat eq_refl)
    as (_ & _ & Hrun & _).
  pose proof (livecam_shows_only_the_message
                sample_predict sample_names cpu_only sample_VideoCapture
                sample_clock "/tmp/upload" gpu_user 0%nat 10%nat eq_refl)
    as (_ & _ & _ & Hrefused & _).
  split; [reflexivity|]. split; [reflexivity|].
  split; [exact (Hrun eq_refl)|].
  split; [reflexivity|]. split; [reflexivity|].
  exact (Hrefused eq_refl).
Defined.

(** ** The further properties at sample inputs *)

Lemma sample_camera_run :
  exists pf t,
    camera_loop sample_predict sample_names 0%nat sample_cfg webcam_warning
                "Webcam Detection" 5
                (capture_of [sample_frame 0; sample_frame 1]) 0 [] = Ok pf t.
Proof. vm_compute. now eexists _, _. Qed.

Lemma frames_detected_once_in_read_order_witness :
  exists pf t n,
    camera_loop sample_predict sample_names 0%nat sample_cfg webcam_warning
                "Webcam Detection" 5
                (capture_of [sample_frame 0; sample_frame 1]) 0 [] = Ok pf t /\
    detected_frames t =
    frames_from (capture_of [sample_frame 0; sample_frame 1]) 0 n.
Proof.
  destruct sample_camera_run as (pf & t & H).
  destruct (proj2 (frames_detected_once_in_read_order
                     sample_predict sample_names sample_clock 0%nat sample_cfg
                     (capture_of [sample_frame 0; sample_frame 1]) 0%nat)
                  _ _ _ _ _ _ H) as (n & _ & _ & _ & Hd).
  now exists pf, t, n.
Defined.

Lemma camera_reports_numbered_consecutively_witness :
  exists pf t,
    camera_loop sample_predict sample_names 0%nat sample_cfg webcam_warning
                "Webcam Detection" 5
                (capture_of [sample_frame 0; sample_frame 1]) 0 [] = Ok pf t /\
    report_indices t = map Z.of_nat (seq 0 (length pf)).
Proof.
  destruct sample_camera_run as (pf & t & H).
  exists pf, t. split; [exact H|].
  exact (proj2 (camera_reports_numbered_consecutively _ _ _ _ _ _ _ _ _ _ _ _ H)
               eq_refl).
Defined.

Lemma displayed_frames_are_the_kept_frames_reversed_witness :
  exists pf t,
    camera_loop sample_predict sample_names 0%nat sample_cfg webcam_warning
                "Webcam Detection" 5
                (capture_of [sample_frame 0; sample_frame 1]) 0 [] = Ok pf t /\
    pf = [] ++ map reverse_channels (shown_images t).
Proof.
  destruct sample_camera_run as (pf & t & H).
  exists pf, t. split; [exact H|].
  exact (proj1 (proj2 (displayed_frames_are_the_kept_frames_reversed
                         _ _ _ _ _ _ _ _ _ _ _ _ H))).
Defined.

Lemma greedy_camera_run :
  exists pf t,
    camera_loop greedy_predict sample_names 0%nat small_cfg ipcam_warning
                "IP Camera Detection" 5
                (capture_of [sample_frame 0; sample_frame 1]) 0 [] = Ok pf t.
Proof. vm_compute. now eexists _, _. Qed.

Lemma camera_report_timings_default_to_zero_witness :
  exists pf t n,
    camera_loop greedy_predict sample_names 0%nat small_cfg ipcam_warning
                "IP Camera Detection" 5
                (capture_of [sample_frame 0; sample_frame 1]) 0 [] = Ok pf t /\
    report_timings t = repeat (0%Q, 0%Q, 0%Q) n.
Proof.
  destruct greedy_camera_run as (pf & t & H).
  destruct (camera_report_timings_default_to_zero _ _ _ _ _ _ _ _ _ _ _ _ H)
    as (n & _ & _ & _ & Hzero).
  exists pf, t, n. split; [exact H|]. apply Hzero. reflexivity.
Defined.

Lemma clicked_upload_run :
  exists t,
    upload_loop sample_predict sample_names sample_clock 0%nat sample_cfg 5
                (capture_of [sample_frame 0; sample_frame 1]) 0
                true false 5 0%Q = Ok tt t.
Proof. vm_compute. now eexists. Qed.

Lemma manual_snapshot_shows_first_frame_once_witness :
  exists t,
    upload_loop sample_predict sample_names sample_clock 0%nat sample_cfg 5
                (capture_of [sample_frame 0; sample_frame 1]) 0
                true false 5 0%Q = Ok tt t /\
    shown_images t =
    map (annotated sample_predict sample_cfg) (firstn 1 (detected_frames t)) /\
    (length (shown_images t) <= 1)%nat.
Proof.
  destruct clicked_upload_run as (t & H).
  destruct (manual_snapshot_shows_first_frame_once _ _ _ _ _ _ _ _ _ _ _ _ _ H)
    as (_ & Hfirst & Hone).
  exists t. split; [exact H|]. split; [now apply Hfirst|exact Hone].
Defined.

Lemma no_snapshot_before_the_interval_witness :
  (forall j, (0 <= j)%nat -> ((fun _ : nat => 0%Q) (S j) - 0 < inject_Z 5)%Q)
  /\
  shown_images
    (events (upload_loop sample_predict sample_names (fun _ => 0%Q) 0%nat
                         sample_cfg 5
                         (capture_of [sample_frame 0; sample_frame 1]) 0
                         false true 5 0%Q)) = [].
Proof.
  assert (Hearly : forall j, (0 <= j)%nat ->
                             ((fun _ : nat => 0%Q) (S j) - 0 < inject_Z 5)%Q)
    by (intros j _; reflexivity).
  split; [exact Hearly|].
  exact (no_snapshot_before_the_interval
           sample_predict sample_names (fun _ => 0%Q) 0%nat sample_cfg 5%nat
           (capture_of [sample_frame 0; sample_frame 1]) 0%nat true 5 0%Q
           Hearly).
Defined.

Lemma reports_without_boxes_say_no_detections_witness :
  MAX_BOXES_TO_DRAW (mkSettings "Livecam Detection" 0 "cpu" (2 # 5) "Yes") = 0
  /\
  Forall says_no_detections
         (events (camera_loop greedy_predict sample_names 0%nat
                    (mkSettings "Livecam Detection" 0 "cpu" (2 # 5) "Yes")
                    webcam_warning "Webcam Detection" 5
                    (capture_of [sample_frame 0; sample_frame 1]) 0 [])).
Proof.
  split; [reflexivity|].
  apply reports_without_boxes_say_no_detections. now right.
Defined.

Lemma image_branch_returns_iff_speed_complete_witness :
  uploaded_image image_user = Some (sample_frame 9) /\
  (exists t,
     image_branch sample_predict sample_names image_user 0%nat sample_cfg
     = Ok tt t /\
     existsb is_download t = true) /\
  (exists t,
     image_branch greedy_predict sample_names image_user 0%nat sample_cfg
     = Raise TypeError t /\
     existsb is_download t = false).
Proof.
  split; [reflexivity|]. split.
  - destruct (proj1 (image_branch_returns_iff_speed_complete
                       sample_predict sample_names image_user 0%nat sample_cfg
                       (sample_frame 9) eq_refl) eq_refl)
      as (t & Ht & _ & Hdown).
    now exists t.
  - destruct (proj2 (image_branch_returns_iff_speed_complete
                       greedy_predict sample_names image_user 0%nat sample_cfg
                       (sample_frame 9) eq_refl) eq_refl)
      as (e & t & Ht & _ & Hdown & ->).
    now exists t.
Defined.

Lemma sample_image_run :
  exists t,
    script_body sample_predict sample_names cpu_only sample_VideoCapture
                sample_clock "/tmp/upload" image_user 0%nat 3 = Ok tt t.
Proof. vm_compute. now eexists. Qed.

Lemma returning_run_ends_with_the_message_witness :
  exists t mid,
    script_body sample_predict sample_names cpu_only sample_VideoCapture
                sample_clock "/tmp/upload" image_user 0%nat 3 = Ok tt t /\
    t = StTitle "YOLOv8 Objects Detection App" :: sidebar_events
        ++ ModelTo 0%nat "cpu" :: mid
        ++ [ModelTo 0%nat "cpu"; StWrite select_message].
Proof.
  destruct sample_image_run as (t & H).
  destruct (returning_run_ends_with_the_message _ _ _ _ _ _ _ _ _ _ H)
    as (_ & _ & _ & mid & _ & _ & Ht).
  now exists t, mid.
Defined.

Lemma cameras_open_only_when_started_witness :
  start_webcam_clicked image_user = false /\
  webcam_branch sample_predict sample_names sample_VideoCapture image_user
                0%nat sample_cfg 5
  = Ok tt [StWidget "Start Webcam Detection"] /\
  start_webcam_clicked livecam_user = true /\
  filter is_cap_open
         (events (webcam_branch sample_predict sample_names
                                sample_VideoCapture livecam_user 0%nat
                                sample_cfg 5))
  = [CapOpen (SrcIndex 0)] /\
  start_ipcam_clicked livecam_user = true /\
  nonempty_string (ip_url livecam_user) = true /\
  filter is_cap_open
         (events (ipcam_branch sample_predict sample_names
                               sample_VideoCapture livecam_user 0%nat
                               sample_cfg 5))
  = [CapOpen (SrcUrl "rtsp://camera/stream")].
Proof.
  pose proof (cameras_open_only_when_started
                sample_predict sample_names sample_VideoCapture image_user
                0%nat sample_cfg 5%nat) as (Hidle & _).
  pose proof (cameras_open_only_when_started
                sample_predict sample_names sample_VideoCapture livecam_user
                0%nat sample_cfg 5%nat) as (_ & _ & _ & Hweb & Hip & _).
  split; [reflexivity|]. split; [exact (Hidle eq_refl)|].
  split; [reflexivity|]. split; [exact Hweb|].
  split; [reflexivity|]. split; [reflexivity|exact Hip].
Defined.

Lemma uploaded_video_run_end_to_end_witness :
  choose input_types (option_index video_user) = "Upload Video" /\
  uploaded_video video_user = Some "bytes" /\
  cpu_only (DEVICES (sidebar_settings video_user)) = true /\
  exists loop_t,
    detected_frames loop_t = [sample_frame 0; sample_frame 1] /\
    script_body sample_predict sample_names cpu_only sample_VideoCapture
                sample_clock "/tmp/upload" video_user 0%nat 3
    = Ok tt (StTitle "YOLOv8 Objects Detection App" :: sidebar_events
             ++ ModelTo 0%nat "cpu"
             :: (video_prelude "/tmp/upload" "bytes" ++ loop_t
                 ++ [CapRelease (SrcFile "/tmp/upload");
                     OsUnlink "/tmp/upload"])
             ++ [ModelTo 0%nat "cpu"; StWrite select_message]).
Proof.
  split; [reflexivity|]. split; [reflexivity|]. split; [reflexivity|].
  destruct sample_file_streams as [Hs Hstop].
  destruct (uploaded_video_run_end_to_end
              sample_predict sample_names cpu_only sample_VideoCapture
              sample_clock "/tmp/upload" video_user 0%nat 3%nat "bytes" 2%nat
              eq_refl eq_refl eq_refl Hs Hstop ltac:(lia))
    as (loop_t & Hd & _ & _ & Hrun).
  exists loop_t. split; [exact Hd|exact Hrun].
Defined.

Lemma uploaded_image_run_end_to_end_witness :
  choose input_types (option_index image_user) = "Upload Image" /\
  uploaded_image image_user = Some (sample_frame 9) /\
  cpu_only (DEVICES (sidebar_settings image_user)) = true /\
  (exists t,
     script_body sample_predict sample_names cpu_only sample_VideoCapture
                 sample_clock "/tmp/upload" image_user 0%nat 3 = Ok tt t /\
     detected_frames t = [sample_frame 9]) /\
  (exists t,
     script_body greedy_predict sample_names cpu_only sample_VideoCapture
                 sample_clock "/tmp/upload" image_user 0%nat 3
     = Raise TypeError t /\
     ~ In (StWrite select_message) t) /\
  cpu_only (DEVICES (sidebar_settings image_gpu_user)) = false /\
  (exists t,
     script_body sample_predict sample_names cpu_only sample_VideoCapture
                 sample_clock "/tmp/upload" image_gpu_user 0%nat 3
     = Raise RuntimeError t /\
     detected_frames t = []).
Proof.
  split; [reflexivity|]. split; [reflexivity|]. split; [reflexivity|].
  split; [|split; [|split; [reflexivity|]]].
  - destruct (proj1 (proj2 (uploaded_image_run_end_to_end
                              sample_predict sample_names cpu_only
                              sample_VideoCapture sample_clock "/tmp/upload"
                              image_user 0%nat 3%nat (sample_frame 9)
                              eq_refl eq_refl)) eq_refl eq_refl)
      as (t & Ht & Hd & _).
    now exists t.
  - destruct (proj2 (proj2 (uploaded_image_run_end_to_end
                              greedy_predict sample_names cpu_only
                              sample_VideoCapture sample_clock "/tmp/upload"
                              image_user 0%nat 3%nat (sample_frame 9)
                              eq_refl eq_refl)) eq_refl eq_refl)
      as (e & t & Ht & -> & _ & _ & Hno).
    now exists t.
  - destruct (proj1 (uploaded_image_run_end_to_end
                       sample_predict sample_names cpu_only
                       sample_VideoCapture sample_clock "/tmp/upload"
                       image_gpu_user 0%nat 3%nat (sample_frame 9)
                       eq_refl eq_refl) eq_refl)
      as (Hrun & Hd).
    eexists. split; [exact Hrun|]. reflexivity.
Defined.

Lemma greedy_upload_run :
  exists t,
    upload_loop greedy_predict sample_names sample_clock 0%nat small_cfg 5
                (capture_of [sample_frame 0; sample_frame 1]) 0
                false false 5 0%Q = Ok tt t.
Proof. vm_compute. now eexists. Qed.

Lemma video_lines_count_all_returned_boxes_witness :
  exists t,
    upload_loop greedy_predict sample_names sample_clock 0%nat small_cfg 5
                (capture_of [sample_frame 0; sample_frame 1]) 0
                false false 5 0%Q = Ok tt t /\
    video_report_counts t =
    map (fun f => length (boxes (greedy_predict f (2 # 5) 2)))
        (detected_frames t).
Proof.
  destruct greedy_upload_run as (t & H).
  exists t. split; [exact H|].
  exact (proj1 (video_lines_count_all_returned_boxes
                  _ _ _ _ _ _ _ _ _ _ _ _ _ _ H)).
Defined.
